(** * PayPal manager: the ledger store, the import merge and the taxonomy

    A shallow embedding of [src/github_storage.py] (class [GitHubStorage]) and
    of the storage-facing part of [src/main.py] ([clean_and_standardize_df],
    [add_import_to_historical], [generate_import_id], [get_file_hash], the
    category handlers and the upload handler), followed by the properties of
    the specification that concern them.

    Conventions.
    - A pandas [DataFrame] is a list of column names and a list of rows; a row
      is a finite map from column names to cells and a key that is absent from
      a row is the missing value (NaN / NaT) of that column.  Column labels are
      strings; a frame with two columns of the same name is not represented.
    - A Python [str] is held as its UTF-8 bytes.
    - Python exceptions are the [Raised] constructor of [outcome]; a
      [try: ... except:] block is [try_except].
    - The remote repository, the requests that were issued and the messages
      shown to the user are the fields of [world]; scripts run in the state
      monad [M] over it.
    - Library functions whose results the code only passes along (date and
      number parsing, CSV and JSON text, base64, MD5) are the fields of the
      class [Externals], and so is [sort_values], which is known by its
      contract only since pandas does not fix the order among equal keys; the
      general theorems hold for all of them and the concrete runs use the
      small environment of the module [Fixture]. *)

From Stdlib Require Import ZArith Ascii String DecimalString.
From stdpp Require Import base decidable countable option list sorting.
From stdpp Require Import strings gmap fin_maps.

Local Open Scope string_scope.
Local Open Scope list_scope.
Local Open Scope Z_scope.

(** ** Cells, rows and frames *)

Inductive cell :=
  | CStr (s : string)     (* a Python str *)
  | CNum (n : Z)          (* a number, in the smallest unit of the currency *)
  | CTime (t : Z).        (* a Timestamp, in seconds *)

Global Instance cell_eq_dec : EqDecision cell.
Proof. solve_decision. Defined.

Definition cell_to_sum (c : cell) : string + (Z + Z) :=
  match c with CStr s => inl s | CNum n => inr (inl n) | CTime t => inr (inr t) end.
Definition cell_of_sum (x : string + (Z + Z)) : cell :=
  match x with inl s => CStr s | inr (inl n) => CNum n | inr (inr t) => CTime t end.

Global Program Instance cell_countable : Countable cell :=
  inj_countable' cell_to_sum cell_of_sum _.
Next Obligation. by intros []. Qed.

Abbreviation row := (gmap string cell).

Record DataFrame := mkDataFrame {
  columns : list string;
  rows : list row
}.

Global Instance DataFrame_eq_dec : EqDecision DataFrame.
Proof. solve_decision. Defined.

(** [pd.DataFrame()] *)
Definition DataFrame_new : DataFrame := mkDataFrame [] [].

(** [df.empty]: true when either axis has length 0. *)
Definition df_empty (df : DataFrame) : bool :=
  bool_decide (columns df = []) || bool_decide (rows df = []).

(** [c in df.columns] *)
Definition has_column (c : string) (df : DataFrame) : bool :=
  bool_decide (c ∈ columns df).

(** [len(df)] *)
Definition df_len (df : DataFrame) : nat := length (rows df).

(** [df[c] = values]: the column is appended when it is new; [f] gives the
    value at each index position, [None] being the missing value. *)
Definition add_column (c : string) (cols : list string) : list string :=
  if bool_decide (c ∈ cols) then cols else cols ++ [c].

Definition put_cell (c : string) (v : option cell) (r : row) : row :=
  match v with Some x => <[c:=x]> r | None => delete c r end.

Definition set_column (c : string) (f : nat → row → option cell)
    (df : DataFrame) : DataFrame :=
  mkDataFrame (add_column c (columns df))
              (imap (λ i r, put_cell c (f i r) r) (rows df)).

(** [df[c] = v] for a scalar [v]. *)
Definition set_scalar (c : string) (v : option cell) (df : DataFrame) : DataFrame :=
  set_column c (λ _ _, v) df.

(** [df[mask]]: the rows selected by a boolean mask, columns unchanged. *)
Definition select (p : row → bool) (df : DataFrame) : DataFrame :=
  mkDataFrame (columns df) (filter (λ r, p r = true) (rows df)).

(** [pd.concat([a, b], ignore_index=True)]: the columns of [a] followed by
    those of [b] that [a] lacks; the rows of [a] followed by those of [b]. *)
Definition concat (a b : DataFrame) : DataFrame :=
  mkDataFrame (columns a ++ filter (λ c, c ∉ columns a) (columns b))
              (rows a ++ rows b).

(** ** The order of the ledger

    Both producers of frames ([load_dataframe] and [clean_and_standardize_df])
    pass the column ['data'] through [pd.to_datetime(..., errors='coerce')],
    which leaves a Timestamp or the missing value in every cell. *)

Definition row_date (r : row) : option Z :=
  match r !! "data" with
  | Some (CTime t) => Some t
  | _ => None
  end.

Definition dated (r : row) : Prop := is_Some (row_date r).

(** The ordering invariant of the ledger: dates never increase along the
    sequence and no dated row follows an undated one. *)
Definition ledger_order (r1 r2 : row) : Prop :=
  match row_date r1, row_date r2 with
  | Some d1, Some d2 => d2 ≤ d1
  | Some _, None => True
  | None, Some _ => False
  | None, None => True
  end.

Global Instance ledger_order_dec r1 r2 : Decision (ledger_order r1 r2).
Proof. unfold ledger_order. destruct (row_date r1), (row_date r2); apply _. Defined.

Definition date_sorted (l : list row) : Prop := StronglySorted ledger_order l.

(** The cell of the column ['data'] is a Timestamp or missing. *)
Definition timestamp_or_missing (r : row) : bool :=
  match r !! "data" with
  | Some (CTime _) | None => true
  | Some _ => false
  end.

(** A frame whose date column, if any, went through [pd.to_datetime]. *)
Definition timestamps (df : DataFrame) : Prop :=
  Forall (λ r, timestamp_or_missing r = true) (rows df).

(** ** Exceptions *)

Inductive outcome (A : Type) :=
  | Returned (a : A)
  | Raised.
Arguments Returned {A} a.
Arguments Raised {A}.

Definition outcome_bind {A B} (o : outcome A) (k : A → outcome B) : outcome B :=
  match o with Returned a => k a | Raised => Raised end.

(** ** The metadata document

    A Python dict with the keys ['import_history'], ['last_update'],
    ['categories'] and ['subcategories']; [None] is an absent key.  The value
    of ['last_update'] can itself be Python's [None]. *)

Record import_metadata := mkImport {
  import_id : string;
  filename : string;
  import_date : string;
  import_datetime : string;
  total_records : nat;
  file_hash : option string      (* read with [imp.get('file_hash', '')] *)
}.

Global Instance import_metadata_eq_dec : EqDecision import_metadata.
Proof. solve_decision. Defined.

Record metadata := mkMetadata {
  import_history : option (list import_metadata);
  last_update : option (option string);
  categories : option (list string);
  subcategories : option (gmap string (list string))
}.

Global Instance metadata_eq_dec : EqDecision metadata.
Proof. solve_decision. Defined.

(** The dict [{}]. *)
Definition empty_dict : metadata := mkMetadata None None None None.

(** ** Library functions *)

Class Externals := {
  (* pd.to_datetime(x, errors='coerce') on one value; None is NaT *)
  to_datetime : cell → option cell;
  (* pd.to_datetime(s) on one string, without errors='coerce': it raises on a
     string it cannot parse; None is NaT *)
  to_datetime_strict : string → outcome (option cell);
  (* pd.to_numeric(x, errors='coerce') on one value; None is NaN *)
  to_numeric : cell → option cell;
  (* .astype(str) on one value *)
  astype_str : cell → string;
  (* df.to_csv(index=False) and pd.read_csv(StringIO(text)) *)
  to_csv : DataFrame → string;
  read_csv : string → outcome DataFrame;
  (* json.dumps(metadata, indent=2) and json.loads(text) *)
  json_dumps : metadata → string;
  json_loads : string → outcome metadata;
  (* base64.b64encode(text.encode()).decode() and base64.b64decode(c).decode() *)
  b64encode : string → string;
  b64decode : string → outcome string;
  (* hashlib.md5(file_bytes).hexdigest() *)
  md5_hexdigest : list Byte.byte → string;
  (* str(hash(s)) *)
  str_hash : string → string;
  (* the version token the content API gives to a stored blob *)
  blob_sha : string → string;
  (* datetime.strftime(fmt) of an instant *)
  strftime : Z → string → string;
  (* df.sort_values('data', ascending=False).  It raises when the column is
     absent or its values cannot be compared.  On a column of Timestamps it
     returns the rows by date, latest first, and after them the rows whose
     date is missing, in the order they had (na_position='last').  pandas
     sorts with numpy's quicksort, which is not stable, so the order among
     rows of equal date is not determined and the function is known by this
     contract only. *)
  sort_values_data_desc : DataFrame → outcome DataFrame;
  sort_values_returns df :
    has_column "data" df = true → timestamps df →
    ∃ sorted, sort_values_data_desc df = Returned sorted;
  sort_values_rows df sorted :
    sort_values_data_desc df = Returned sorted →
    columns sorted = columns df ∧ rows sorted ≡ₚ rows df;
  sort_values_order df sorted :
    sort_values_data_desc df = Returned sorted → timestamps df →
    date_sorted (rows sorted)
    ∧ filter (λ r, ¬ dated r) (rows sorted) = filter (λ r, ¬ dated r) (rows df)
}.

(** ** The world: remote repository, requests issued, messages shown *)

Inductive net_state :=
  | Up                      (* the content API serves the repository *)
  | Answering (status : Z)  (* every request is answered with this status and no body *)
  | Down.                   (* every request raises (connection error) *)

Inductive request :=
  | GET (path : string)
  | PUT (path : string) (message content : string) (sha : option string).

Inductive message :=
  | Errore_nel_salvataggio                 (* github_storage.py, line 66 *)
  | Errore_nel_caricamento                 (* github_storage.py, line 94 *)
  | Errore_nel_salvataggio_metadati        (* github_storage.py, line 127 *)
  | Errore_nel_caricamento_metadati        (* github_storage.py, line 154 *)
  | Dati_salvati_su_GitHub                 (* main.py, line 132 *)
  | Errore_salvataggio_su_GitHub           (* main.py, line 134 *)
  | Errore_salvataggio_metadati            (* main.py, line 145 *)
  | Tutte_gia_presenti                     (* main.py, line 168 *)
  | Aggiunte_nuove_evitati_duplicati (nuove duplicati : nat)  (* main.py, line 171 *)
  | Errore_caricamento_file_PayPal         (* main.py, line 120 *)
  | Errore_aggiunta_import                 (* main.py, line 184 *)
  | Errore_upload                          (* main.py, line 371 *)
  | File_gia_caricato (name : string)      (* main.py, line 341 *)
  | Estratto_conto_caricato.               (* main.py, line 367 *)

Record world := mkWorld {
  files : gmap string string;   (* path ↦ stored (base64) content *)
  net : net_state;
  requests : list request;      (* oldest first *)
  ui : list message;            (* oldest first *)
  now : Z                       (* datetime.now() *)
}.

Definition M (A : Type) : Type := world → A * world.

Global Instance M_ret : MRet M := λ A a w, (a, w).
Global Instance M_bind : MBind M := λ A B k m w, let '(a, w') := m w in k a w'.

Definition st_show (m : message) : M unit :=
  λ w, (tt, mkWorld (files w) (net w) (requests w) (ui w ++ [m]) (now w)).

Definition datetime_now : M Z := λ w, (now w, w).

(** Code that can raise: the body of a [try] block. *)
Definition E (A : Type) : Type := world → outcome A * world.

Global Instance E_ret : MRet E := λ A a w, (Returned a, w).
Global Instance E_bind : MBind E := λ A B k m w,
  match m w with
  | (Returned a, w') => k a w'
  | (Raised, w') => (Raised, w')
  end.

(** A call that cannot raise, and the result of a pure call that can. *)
Definition lift {A} (m : M A) : E A := λ w, let '(a, w') := m w in (Returned a, w').
Definition of_outcome {A} (o : outcome A) : E A := λ w, (o, w).

(** [try: body  except: handler] *)
Definition try_except {A} (body : E A) (handler : M A) : M A :=
  λ w,
    match body w with
    | (Returned a, w') => (a, w')
    | (Raised, w') => handler w'
    end.

(** *** The REST content API *)

Record response := mkResponse {
  status_code : Z;
  body : option (string * string)   (* response.json(): 'content' and 'sha' *)
}.

Definition log_request (q : request) (w : world) : world :=
  mkWorld (files w) (net w) (requests w ++ [q]) (ui w) (now w).

Definition store_file (path content : string) (w : world) : world :=
  mkWorld (<[path:=content]> (files w)) (net w) (requests w) (ui w) (now w).

Section github_storage.
Context `{Externals}.

(** [requests.get(f"{self.base_url}/{file_path}", headers=self.headers)] *)
Definition requests_get (path : string) : E response :=
  λ w,
    let w1 := log_request (GET path) w in
    match net w with
    | Down => (Raised, w1)
    | Answering s => (Returned (mkResponse s None), w1)
    | Up =>
        match files w !! path with
        | Some c => (Returned (mkResponse 200 (Some (c, blob_sha c))), w1)
        | None => (Returned (mkResponse 404 None), w1)
        end
    end.

(** [requests.put(..., json=data)]: a create when the path is free, a
    conditional update when the token matches the stored blob. *)
Definition requests_put (path msg content : string) (sha : option string)
    : E response :=
  λ w,
    let w1 := log_request (PUT path msg content sha) w in
    match net w with
    | Down => (Raised, w1)
    | Answering s => (Returned (mkResponse s None), w1)
    | Up =>
        match files w !! path, sha with
        | None, _ => (Returned (mkResponse 201 None), store_file path content w1)
        | Some c, Some s =>
            if bool_decide (s = blob_sha c)
            then (Returned (mkResponse 200 None), store_file path content w1)
            else (Returned (mkResponse 409 None), w1)
        | Some _, None => (Returned (mkResponse 422 None), w1)
        end
    end.

(** [response.json()['content']] and [response.json()['sha']] *)
Definition json_content (r : response) : outcome string :=
  match body r with Some (c, _) => Returned c | None => Raised end.
Definition json_sha (r : response) : outcome string :=
  match body r with Some (_, s) => Returned s | None => Raised end.

End github_storage.

(** ** [class GitHubStorage] (github_storage.py)

    One repository is modelled, so [self.base_url] and [self.headers] are
    fixed and a request is identified by its [file_path]. *)

Module GitHubStorage.
Section methods.
Context `{Externals}.

(** [df[c] = f(df[c])], applied when the column exists. *)
Definition convert_column (c : string) (f : cell → option cell)
    (df : DataFrame) : DataFrame :=
  if has_column c df then set_column c (λ _ r, r !! c ≫= f) df else df.

Definition file_exists (file_path : string) : M bool :=
  try_except
    (response ← requests_get file_path;
     mret (bool_decide (status_code response = 200)))
    (mret false).

Definition get_file_sha (file_path : string) : M (option string) :=
  try_except
    (response ← requests_get file_path;
     if bool_decide (status_code response = 200)
     then sha ← of_outcome (json_sha response); mret (Some sha)
     else mret None)
    (mret None).

(** [if sha:] holds for a non-empty string. *)
Definition truthy (sha : option string) : option string :=
  match sha with
  | Some EmptyString => None
  | other => other
  end.

(** The part shared by [save_dataframe] and [save_metadata]: probe, fetch the
    version token, PUT, and report whether the status is 200 or 201. *)
Definition put_blob (file_path commit_message content_encoded : string) : E bool :=
  present ← lift (file_exists file_path);
  sha ← (if present : bool then lift (get_file_sha file_path) else mret None);
  response ← requests_put file_path commit_message content_encoded (truthy sha);
  mret (bool_decide (status_code response ∈ [200; 201])).

Definition save_dataframe (df : DataFrame) (file_path commit_message : string)
    : M bool :=
  try_except
    (let csv_content := to_csv df in
     let content_encoded := b64encode csv_content in
     put_blob file_path commit_message content_encoded)
    (_ ← st_show Errore_nel_salvataggio; mret false).

(** Lines 76-89: from a 200 response to the frame; each step can raise. *)
Definition decode_dataframe (response : response) : outcome DataFrame :=
  outcome_bind (json_content response) (λ content,
  outcome_bind (b64decode content) (λ csv_content,
  outcome_bind (read_csv csv_content) (λ df,
    let df := convert_column "data" to_datetime df in
    let df := convert_column "import_datetime" to_datetime df in
    Returned df))).

(** The [try] block of [load_dataframe]. *)
Definition load_dataframe_try (file_path : string) : E DataFrame :=
  response ← requests_get file_path;
  if bool_decide (status_code response = 200)
  then of_outcome (decode_dataframe response)
  else mret DataFrame_new.

Definition load_dataframe (file_path : string) : M DataFrame :=
  try_except (load_dataframe_try file_path)
             (_ ← st_show Errore_nel_caricamento; mret DataFrame_new).

Definition set_last_update (t : string) (md : metadata) : metadata :=
  mkMetadata (import_history md) (Some (Some t)) (categories md) (subcategories md).

(** [save_metadata] assigns ['last_update'] in the caller's dict before
    anything can raise, so the updated dict is returned with the flag. *)
Definition save_metadata (md : metadata) (file_path : string)
    : M (bool * metadata) :=
  t ← datetime_now;
  let md := set_last_update (strftime t "%Y-%m-%d %H:%M:%S") md in
  ok ← try_except
    (let json_content := json_dumps md in
     let content_encoded := b64encode json_content in
     put_blob file_path "Update metadata" content_encoded)
    (_ ← st_show Errore_nel_salvataggio_metadati; mret false);
  mret (ok, md).

(** The dict returned when the GET does not answer 200. *)
Definition default_metadata : metadata :=
  mkMetadata
    (Some [])
    (Some None)
    (Some ["Software"; "Domini e Hosting"; "Servizi Web"; "Abbonamenti";
           "Hardware"; "Consulenze"; "Marketing"; "Altro"])
    (Some (list_to_map
      [("Software", ["Licenze"; "Abbonamenti SaaS"; "Plugin"; "Applicazioni"]);
       ("Domini e Hosting", ["Registrazione Domini"; "Hosting Web"; "SSL"; "CDN"]);
       ("Servizi Web", ["API"; "Cloud Storage"; "Email Service"; "Backup"]);
       ("Marketing", ["Advertising"; "Social Media"; "Email Marketing"; "SEO Tools"])])).

(** Lines 136-138: from a 200 response to the dict; each step can raise. *)
Definition decode_metadata (response : response) : outcome metadata :=
  outcome_bind (json_content response) (λ content,
  outcome_bind (b64decode content) (λ json_content,
    json_loads json_content)).

(** The [try] block of [load_metadata]. *)
Definition load_metadata_try (file_path : string) : E metadata :=
  response ← requests_get file_path;
  if bool_decide (status_code response = 200)
  then of_outcome (decode_metadata response)
  else mret default_metadata.

Definition load_metadata (file_path : string) : M metadata :=
  try_except (load_metadata_try file_path)
             (_ ← st_show Errore_nel_caricamento_metadati; mret empty_dict).

End methods.
End GitHubStorage.

(** ** Python strings *)

(** The string with the given bytes. *)
Definition bytes (l : list Z) : string :=
  string_of_list_ascii ((λ n, ascii_of_nat (Z.to_nat n)) <$> l).

(** The characters for which [str.isspace()] holds, in UTF-8: U+0009 to
    U+000D, U+001C to U+0020, U+0085, U+00A0, U+1680, U+2000 to U+200A,
    U+2028, U+2029, U+202F, U+205F and U+3000. *)
Definition whitespace : list string :=
  [bytes [9]; bytes [10]; bytes [11]; bytes [12]; bytes [13];
   bytes [28]; bytes [29]; bytes [30]; bytes [31]; bytes [32];
   bytes [194; 133]; bytes [194; 160]; bytes [225; 154; 128];
   bytes [226; 128; 128]; bytes [226; 128; 129]; bytes [226; 128; 130];
   bytes [226; 128; 131]; bytes [226; 128; 132]; bytes [226; 128; 133];
   bytes [226; 128; 134]; bytes [226; 128; 135]; bytes [226; 128; 136];
   bytes [226; 128; 137]; bytes [226; 128; 138]; bytes [226; 128; 168];
   bytes [226; 128; 169]; bytes [226; 128; 175]; bytes [226; 129; 159];
   bytes [227; 128; 128]].

(** [s] without the prefix [p], when it starts with it. *)
Fixpoint skip_prefix (p s : string) : option string :=
  match p, s with
  | EmptyString, _ => Some s
  | String a p', String b s' => if Ascii.eqb a b then skip_prefix p' s' else None
  | String _ _, EmptyString => None
  end.

Definition skip_one_of (ps : list string) (s : string) : option string :=
  foldr (λ p rest, match skip_prefix p s with Some s' => Some s' | None => rest end)
        None ps.

Fixpoint lstrip_go (spaces : list string) (fuel : nat) (s : string) : string :=
  match fuel with
  | O => s
  | S fuel =>
      match skip_one_of spaces s with
      | Some s' => lstrip_go spaces fuel s'
      | None => s
      end
  end.

Definition lstrip (s : string) : string :=
  lstrip_go whitespace (String.length s) s.

Definition rstrip (s : string) : string :=
  String.rev (lstrip_go (String.rev <$> whitespace) (String.length s) (String.rev s)).

(** [s.strip()] *)
Definition strip (s : string) : string := rstrip (lstrip s).

Fixpoint replace_go (old new : string) (skip : nat) (s : string) : string :=
  match s with
  | EmptyString => EmptyString
  | String a s' =>
      match skip with
      | S k => replace_go old new k s'
      | O =>
          if Stdlib.Strings.String.prefix old s
          then new +:+ replace_go old new (Nat.pred (String.length old)) s'
          else String a (replace_go old new O s')
      end
  end.

(** [s.replace(old, new)] for a non-empty [old]: occurrences are replaced from
    left to right without overlap. *)
Definition replace (old new s : string) : string := replace_go old new O s.

(** A byte that continues a character (10xxxxxx). *)
Definition is_continuation (a : ascii) : bool :=
  ((128 <=? nat_of_ascii a) && (nat_of_ascii a <? 192))%nat.

(** [s[:n]]: the first [n] characters. *)
Fixpoint take_chars (n : nat) (s : string) : string :=
  match s with
  | EmptyString => EmptyString
  | String a s' =>
      if is_continuation a then String a (take_chars n s')
      else match n with
           | O => EmptyString
           | S k => String a (take_chars k s')
           end
  end.

(** [str(i)] for an index position. *)
Definition str_of_nat (i : nat) : string := NilEmpty.string_of_uint (Nat.to_uint i).

(** ** main.py: helper functions *)

Definition data_path : string := "data/paypal_history_complete.csv".
Definition metadata_path : string := "data/system_metadata.json".

(** [df.rename(columns={old: new})] *)
Definition rename_key (old new : string) (r : row) : row :=
  match r !! old with
  | Some v => <[new:=v]> (delete old r)
  | None => r
  end.

Definition rename (old new : string) (df : DataFrame) : DataFrame :=
  if bool_decide (old = new) then df
  else mkDataFrame ((λ c, if bool_decide (c = old) then new else c) <$> columns df)
                   (rename_key old new <$> rows df).

(** [df.columns = df.columns.str.strip()] *)
Definition strip_columns (df : DataFrame) : DataFrame :=
  foldl (λ d c, rename c (strip c) d) df (columns df).

Definition column_mapping : list (string * string) :=
  [("Data", "data"); ("Orario", "orario"); ("Nome", "nome");
   ("Tipo", "tipo_transazione"); ("Stato", "stato"); ("Valuta", "valuta");
   ("Lordo", "importo_lordo"); ("Netto", "importo_netto");
   ("Tariffa", "commissione"); ("Codice transazione", "codice_transazione");
   ("Indirizzo email mittente", "email_mittente");
   ("Indirizzo email destinatario", "email_destinatario");
   ("Titolo oggetto", "descrizione"); ("Saldo", "saldo");
   ("Impatto sul saldo", "impatto_saldo"); ("Tipo di spesa", "tipo_spesa");
   ("Categoria", "categoria"); ("Tipologia", "tipologia");
   ("Sottocategoria", "sottocategoria"); ("Numero Fattura", "numero_fattura");
   ("Note", "note")].

Definition required_columns : list string :=
  ["categoria"; "sottocategoria"; "numero_fattura"; "note"; "tipo_spesa"; "tipologia"].

Definition text_fields : list string :=
  ["categoria"; "sottocategoria"; "numero_fattura"; "note"; "tipo_spesa"; "tipologia";
   "nome"; "tipo_transazione"; "stato"; "descrizione"].

(** [df[c].isna().all()] *)
Definition all_isna (c : string) (df : DataFrame) : bool :=
  forallb (λ r : row, bool_decide (r !! c = None)) (rows df).

(** What the script reads from an uploaded file. *)
Record uploaded_file := mkUpload {
  name : string;
  size : nat;
  read : outcome (list Byte.byte);   (* uploaded_file.read() *)
  read_excel : outcome DataFrame     (* pd.read_excel(uploaded_file) *)
}.

Section main_helpers.
Context `{Externals}.

(** [df[c].fillna(empty string).astype(str)] on one row *)
Definition fillna_astype_str (c : string) (r : row) : string :=
  match r !! c with
  | Some v => astype_str v
  | None => EmptyString
  end.

(** Line 43 raises on a frame without columns (its column index does not hold
    strings and has no [.str] accessor); nothing else in the function
    raises. *)
Definition clean_and_standardize_df (df : DataFrame) : outcome DataFrame :=
  (* Pulisce i nomi delle colonne *)
  if bool_decide (columns df = []) then Raised else
  let df := strip_columns df in
  (* Rinomina le colonne presenti *)
  let df := foldl (λ d '(old_name, new_name),
                     if has_column old_name d then rename old_name new_name d else d)
                  df column_mapping in
  (* Aggiungi colonne mancanti *)
  let df := foldl (λ d col,
                     if has_column col d then d else set_scalar col (Some (CStr EmptyString)) d)
                  df required_columns in
  (* Pulisci e converti i dati *)
  let df := GitHubStorage.convert_column "data" to_datetime df in
  let df := if has_column "importo_lordo" df
            then set_column "importo_lordo"
                   (λ _ r, Some (default (CNum 0) (r !! "importo_lordo" ≫= to_numeric))) df
            else df in
  (* Campi testuali *)
  let df := foldl (λ d field,
                     if has_column field d
                     then set_column field (λ _ r, Some (CStr (fillna_astype_str field r))) d
                     else d)
                  df text_fields in
  (* Codice transazione *)
  let df := if negb (has_column "codice_transazione" df) || all_isna "codice_transazione" df
            then set_column "codice_transazione"
                   (λ i _, Some (CStr ("TXN_" +:+ str_of_nat i))) df
            else set_column "codice_transazione"
                   (λ _ r, Some (CStr (fillna_astype_str "codice_transazione" r))) df in
  (* ID univoco (the code column has no missing value at this point) *)
  Returned (set_column "id_univoco"
    (λ i r, Some (CStr (fillna_astype_str "codice_transazione" r +:+ "_" +:+ str_of_nat i)))
    df).

Definition load_paypal_excel (file : uploaded_file) : M (option DataFrame) :=
  try_except
    (df ← of_outcome (read_excel file);
     df ← of_outcome (clean_and_standardize_df df);
     mret (Some df))
    (_ ← st_show Errore_caricamento_file_PayPal; mret None).

Definition load_historical_data : M DataFrame :=
  GitHubStorage.load_dataframe data_path.

Definition save_historical_data (df : DataFrame) : M unit :=
  success ← GitHubStorage.save_dataframe df data_path "Update PayPal historical data";
  if success : bool then st_show Dati_salvati_su_GitHub
  else st_show Errore_salvataggio_su_GitHub.

Definition load_metadata : M metadata :=
  GitHubStorage.load_metadata metadata_path.

(** Returns the dict as [GitHubStorage.save_metadata] left it. *)
Definition save_metadata (md : metadata) : M metadata :=
  '(success, md) ← GitHubStorage.save_metadata md metadata_path;
  if success : bool then mret md
  else _ ← st_show Errore_salvataggio_metadati; mret md.

End main_helpers.

(** ** main.py: merging an import into the ledger *)

Definition codice : string := "codice_transazione".

(** [set(df['codice_transazione'].dropna())] *)
Definition existing_codes_of (df : DataFrame) : gset cell :=
  list_to_set (omap (λ r : row, r !! codice) (rows df)).

(** [~df['codice_transazione'].isin(codes)] on one row; a missing value is in
    no set of present values. *)
Definition not_isin (codes : gset cell) (r : row) : bool :=
  match r !! codice with
  | Some c => bool_decide (c ∉ codes)
  | None => true
  end.

Section merge.
Context `{Externals}.

(** Lines 153-157: the copy of the batch with the import's provenance.
    [pd.to_datetime] is called without errors='coerce' at line 156. *)
Definition stamp (im : import_metadata) (new_data : DataFrame) : outcome DataFrame :=
  let new_data_copy := new_data in
  let new_data_copy := set_scalar "import_id" (Some (CStr (import_id im))) new_data_copy in
  let new_data_copy := set_scalar "import_date" (Some (CStr (import_date im))) new_data_copy in
  outcome_bind (to_datetime_strict (import_datetime im)) (λ t,
  let new_data_copy := set_scalar "import_datetime" t new_data_copy in
  Returned (set_scalar "import_filename" (Some (CStr (filename im))) new_data_copy)).

(** Lines 176-178. *)
Definition sort_by_data (updated_historical : DataFrame) : outcome DataFrame :=
  if has_column "data" updated_historical
  then sort_values_data_desc updated_historical
  else Returned updated_historical.

(** Lines 176-181. *)
Definition sort_and_save (updated_historical : DataFrame) : E DataFrame :=
  updated_historical ← of_outcome (sort_by_data updated_historical);
  _ ← lift (save_historical_data updated_historical);
  mret updated_historical.

(** The two storage calls catch their own exceptions; line 156 and the sort
    of line 178 can raise, and the handler of lines 183-185 then shows the
    error and returns the batch it was given. *)
Definition add_import_to_historical (new_data : DataFrame) (im : import_metadata)
    : M DataFrame :=
  try_except
    (historical_df ← lift load_historical_data;
     (* Prepara i nuovi dati con metadati *)
     new_data_copy ← of_outcome (stamp im new_data);
     if df_empty historical_df then
       sort_and_save new_data_copy
     else
       (* Verifica duplicati *)
       if has_column codice historical_df && has_column codice new_data_copy then
         let existing_codes := existing_codes_of historical_df in
         let new_transactions := select (not_isin existing_codes) new_data_copy in
         if bool_decide (df_len new_transactions = 0%nat) then
           _ ← lift (st_show Tutte_gia_presenti);
           mret historical_df
         else
           _ ← lift (st_show (Aggiunte_nuove_evitati_duplicati
                                (df_len new_transactions)
                                (df_len new_data_copy - df_len new_transactions)));
           sort_and_save (concat historical_df new_transactions)
       else
         sort_and_save (concat historical_df new_data_copy))
    (_ ← st_show Errore_aggiunta_import; mret new_data).

(** The same computation without the store: what the function does with the
    ledger it loaded.  [Unchanged] is the early return of line 169; [Updated]
    carries the frame that is saved and returned, and the counts of the
    message of line 171 when it is shown; [Failed] is an exception raised at
    line 156 or at line 178, after the message of line 171 when it carries
    its counts. *)
Inductive merged :=
  | Unchanged (historical_df : DataFrame)
  | Updated (counts : option (nat * nat)) (updated_historical : DataFrame)
  | Failed (counts : option (nat * nat)).

Definition sorted_or_failed (counts : option (nat * nat))
    (updated_historical : DataFrame) : merged :=
  match sort_by_data updated_historical with
  | Returned updated_historical => Updated counts updated_historical
  | Raised => Failed counts
  end.

Definition merge_frames (historical_df new_data : DataFrame) (im : import_metadata)
    : merged :=
  match stamp im new_data with
  | Raised => Failed None
  | Returned new_data_copy =>
      if df_empty historical_df then
        sorted_or_failed None new_data_copy
      else
        if has_column codice historical_df && has_column codice new_data_copy then
          let existing_codes := existing_codes_of historical_df in
          let new_transactions := select (not_isin existing_codes) new_data_copy in
          if bool_decide (df_len new_transactions = 0%nat) then
            Unchanged historical_df
          else
            sorted_or_failed
              (Some (df_len new_transactions,
                     (df_len new_data_copy - df_len new_transactions)%nat))
              (concat historical_df new_transactions)
        else
          sorted_or_failed None (concat historical_df new_data_copy)
  end.

(** The frame the function returns. *)
Definition merge (historical_df new_data : DataFrame) (im : import_metadata)
    : DataFrame :=
  match merge_frames historical_df new_data im with
  | Unchanged df => df
  | Updated _ df => df
  | Failed _ => new_data
  end.

Definition show_counts (counts : option (nat * nat)) : M unit :=
  match counts with
  | Some (nuove, duplicati) => st_show (Aggiunte_nuove_evitati_duplicati nuove duplicati)
  | None => mret tt
  end.

(** The effects that follow the computation of [merge_frames]. *)
Definition commit (new_data : DataFrame) (m : merged) : M DataFrame :=
  match m with
  | Unchanged df => _ ← st_show Tutte_gia_presenti; mret df
  | Updated counts df =>
      _ ← show_counts counts;
      _ ← save_historical_data df;
      mret df
  | Failed counts =>
      _ ← show_counts counts;
      _ ← st_show Errore_aggiunta_import;
      mret new_data
  end.

End merge.

(** ** main.py: the sidebar handlers

    A handler is given the metadata dict the script loaded at its start and
    returns the dict as the handler leaves it; [categories] and
    [import_history] are the lists held by that dict (or a fresh empty list
    when the key is absent). *)

(** [categories.remove(cat)]: the first occurrence is removed. *)
Fixpoint list_remove_first (x : string) (l : list string) : list string :=
  match l with
  | [] => []
  | y :: l' => if bool_decide (x = y) then l' else y :: list_remove_first x l'
  end.

Definition set_categories (cats : list string) (md : metadata) : metadata :=
  mkMetadata (import_history md) (last_update md) (Some cats) (subcategories md).

Definition set_subcategories (subs : gmap string (list string)) (md : metadata)
    : metadata :=
  mkMetadata (import_history md) (last_update md) (categories md) (Some subs).

Definition set_import_history (h : list import_metadata) (md : metadata) : metadata :=
  mkMetadata (Some h) (last_update md) (categories md) (subcategories md).

Section handlers.
Context `{Externals}.

Definition generate_import_id (filename : string) : M string :=
  t ← datetime_now;
  let timestamp := strftime t "%Y%m%d_%H%M%S" in
  let name_part :=
    take_chars 20 (replace ".xls" EmptyString (replace ".xlsx" EmptyString filename)) in
  mret ("PP_" +:+ timestamp +:+ "_" +:+ name_part).

Definition get_file_hash (file : uploaded_file) : string :=
  match read file with
  | Returned file_bytes => md5_hexdigest file_bytes
  | Raised => str_hash (name file +:+ str_of_nat (size file))
  end.

(** Lines 267-282: the button "Aggiungi" with the text [new_category]. *)
Definition add_category (md : metadata) (new_category : string) : M metadata :=
  let cats := default [] (categories md) in
  if negb (bool_decide (new_category = EmptyString))
     && negb (bool_decide (strip new_category = EmptyString)) then
    let new_category := strip new_category in
    if bool_decide (new_category ∉ cats) then
      let md := set_categories (cats ++ [new_category]) md in
      let md := set_subcategories (<[new_category:=[]]> (default ∅ (subcategories md))) md in
      save_metadata md
    else mret md
  else mret md.

(** Lines 287-298: the delete button of the [i]-th category. *)
Definition delete_category (md : metadata) (i : nat) : M metadata :=
  let cats := default [] (categories md) in
  match cats !! i with
  | None => mret md
  | Some cat =>
      let cats := list_remove_first cat cats in
      let md :=
        match subcategories md with
        | Some subs =>
            if bool_decide (cat ∈ dom subs) then set_subcategories (delete cat subs) md
            else md
        | None => md
        end in
      let md := set_categories cats md in
      save_metadata md
  end.

(** Lines 336-371: a file was chosen in the uploader. *)
Definition upload (md : metadata) (file : uploaded_file) : M metadata :=
  let history := default [] (import_history md) in
  let this_hash := get_file_hash file in
  let existing_hashes := (λ imp, default EmptyString (file_hash imp)) <$> history in
  if bool_decide (this_hash ∈ existing_hashes) then
    _ ← st_show (File_gia_caricato (name file));
    mret md
  else
    try_except
      (lift (
        paypal_df ← load_paypal_excel file;
        match paypal_df with
        | None => mret md
        | Some paypal_df =>
            new_id ← generate_import_id (name file);
            t ← datetime_now;
            let im := mkImport new_id (name file) (strftime t "%Y-%m-%d")
                        (strftime t "%Y-%m-%d %H:%M:%S") (df_len paypal_df)
                        (Some this_hash) in
            (* Aggiungi allo storico *)
            _ ← add_import_to_historical paypal_df im;
            (* Aggiorna metadati *)
            let md := set_import_history (history ++ [im]) md in
            md ← save_metadata md;
            _ ← st_show Estratto_conto_caricato;
            mret md
        end))
      (_ ← st_show Errore_upload; mret md).

End handlers.

(** ** Notions used in the statements *)

(** The provenance stamp on one row (lines 154-157), [t] being the Timestamp
    of line 156. *)
Definition stamp_row (t : option cell) (im : import_metadata) (r : row) : row :=
  put_cell "import_filename" (Some (CStr (filename im)))
    (put_cell "import_datetime" t
      (put_cell "import_date" (Some (CStr (import_date im)))
        (put_cell "import_id" (Some (CStr (import_id im))) r))).

(** The stamped copy of the batch (lines 153-157) when line 156 gives [t]. *)
Definition stamped (t : option cell) (im : import_metadata) (new_data : DataFrame)
    : DataFrame :=
  set_scalar "import_filename" (Some (CStr (filename im)))
    (set_scalar "import_datetime" t
      (set_scalar "import_date" (Some (CStr (import_date im)))
        (set_scalar "import_id" (Some (CStr (import_id im))) new_data))).

(** The records of the stamped batch whose code is not among the codes of the
    ledger. *)
Definition kept_rows (historical_df new_data_copy : DataFrame) : list row :=
  filter (λ r, not_isin (existing_codes_of historical_df) r = true)
         (rows new_data_copy).


(** The record carries a transaction code and some record of the ledger
    carries the same code. *)
Definition code_present (historical_df : DataFrame) (r : row) : Prop :=
  ∃ c r', r !! codice = Some c ∧ r' ∈ rows historical_df ∧ r' !! codice = Some c.

(** Every cell of a row belongs to a column of the frame. *)
Definition well_formed (df : DataFrame) : Prop :=
  Forall (λ r : row, ∀ c, is_Some (r !! c) → c ∈ columns df) (rows df).

(** A batch in which every record has a transaction code. *)
Definition coded (df : DataFrame) : Prop :=
  has_column codice df = true ∧ Forall (λ r : row, is_Some (r !! codice)) (rows df).

Definition is_put (q : request) : bool :=
  match q with PUT _ _ _ _ => true | GET _ => false end.

(** ** Facts about lists and the order *)

Lemma filter_none {A} (P : A → Prop) `{∀ x, Decision (P x)} (l : list A) :
  Forall (λ x, ¬ P x) l → filter P l = [].
Proof.
  induction 1 as [|x l Hx _ IH]; [done|]. by rewrite filter_cons_False.
Qed.

Lemma filter_all {A} (P : A → Prop) `{∀ x, Decision (P x)} (l : list A) :
  Forall P l → filter P l = l.
Proof.
  induction 1 as [|x l Hx _ IH]; [done|]. rewrite filter_cons_True; [|done].
  by rewrite IH.
Qed.

Lemma ledger_order_undated r1 r2 : ¬ dated r2 → ledger_order r1 r2.
Proof.
  unfold dated, ledger_order. intros Hr2.
  destruct (row_date r2) as [d2|]; [destruct Hr2; eauto|].
  by destruct (row_date r1).
Qed.

Lemma date_sorted_undated l : Forall (λ r, ¬ dated r) l → date_sorted l.
Proof.
  induction 1 as [|r l Hr Hl IH]; constructor; [done|].
  eapply Forall_impl; [exact Hl|]. intros r'. apply ledger_order_undated.
Qed.

(** ** A small environment for the examples

    CSV text has a header line and one line per row, fields separated by
    commas and never quoted; as with pandas an empty field is read as the
    missing value, a column whose fields are all numerals is read as numbers
    and blank lines are skipped.  A Timestamp is written as its number of
    seconds and a string is a date when it starts with a numeral.  JSON text
    is an injective rendering of the dict (its code, in binary); base64 is the
    identity; the digest of a file is its length and the version token of a
    blob is its text after a mark.  Only date columns are sorted. *)

Module Fixture.

Definition str_of_Z (n : Z) : string := NilZero.string_of_int (Z.to_int n).

Definition number_of (s : string) : option Z :=
  Z.of_uint <$> NilZero.uint_of_string s.

Definition newline : string := String "010" EmptyString.
Definition comma : string := ",".
Definition empty_quotes : string := String "034" (String "034" EmptyString).

Fixpoint split_on (sep : ascii) (s : string) : list string :=
  match s with
  | EmptyString => [EmptyString]
  | String a s' =>
      if Ascii.eqb a sep then EmptyString :: split_on sep s'
      else match split_on sep s' with
           | field :: fields => String a field :: fields
           | [] => [String a EmptyString]
           end
  end.

Definition print_cell (c : option cell) : string :=
  match c with
  | Some (CStr s) => s
  | Some (CNum n) => str_of_Z n
  | Some (CTime t) => str_of_Z t
  | None => EmptyString
  end.

Definition print_line (fields : list string) : string :=
  let line := String.concat comma fields in
  if bool_decide (line = EmptyString) then empty_quotes else line.

Definition print_csv (df : DataFrame) : string :=
  String.concat newline
    (String.concat comma (columns df)
     :: ((λ r : row, print_line ((λ c, print_cell (r !! c)) <$> columns df)) <$> rows df))
  +:+ newline.

Definition field_at (i : nat) (fields : list string) : string :=
  let f := default EmptyString (fields !! i) in
  if bool_decide (f = empty_quotes) then EmptyString else f.

Definition numeric_column (table : list (list string)) (i : nat) : bool :=
  forallb (λ fields,
             bool_decide (field_at i fields = EmptyString)
             || bool_decide (is_Some (number_of (field_at i fields))))
          table.

Definition parse_field (numeric : bool) (f : string) : option cell :=
  if bool_decide (f = EmptyString) then None
  else if numeric then CNum <$> number_of f
  else Some (CStr f).

Definition parse_row (cols : list string) (table : list (list string))
    (fields : list string) : row :=
  list_to_map
    (omap (λ '(i, c), (λ v, (c, v)) <$> parse_field (numeric_column table i) (field_at i fields))
          (imap pair cols)).

Definition parse_csv (text : string) : outcome DataFrame :=
  match filter (λ l, l ≠ EmptyString) (split_on "010" text) with
  | [] => Raised
  | header :: lines =>
      let cols := split_on "," header in
      let table := split_on "," <$> lines in
      Returned (mkDataFrame cols (parse_row cols table <$> table))
  end.

Definition is_digit (a : ascii) : bool :=
  ((48 <=? nat_of_ascii a) && (nat_of_ascii a <=? 57))%nat.

Fixpoint leading_digits (s : string) : string :=
  match s with
  | String a s' => if is_digit a then String a (leading_digits s') else EmptyString
  | EmptyString => EmptyString
  end.

Definition parse_time (c : cell) : option cell :=
  match c with
  | CTime t => Some (CTime t)
  | CNum n => Some (CTime n)
  | CStr s => CTime <$> number_of (leading_digits s)
  end.

(** The empty string is NaT; any other string that is not a date raises. *)
Definition parse_time_strict (s : string) : outcome (option cell) :=
  if bool_decide (s = EmptyString) then Returned None
  else match parse_time (CStr s) with
       | Some t => Returned (Some t)
       | None => Raised
       end.

Definition parse_number (c : cell) : option cell :=
  match c with
  | CNum n => Some (CNum n)
  | _ => None
  end.

(** The code of a dict, in binary, least significant digit first. *)
Fixpoint string_of_pos (p : positive) : string :=
  match p with
  | xH => EmptyString
  | xO p => String "0" (string_of_pos p)
  | xI p => String "1" (string_of_pos p)
  end.

Fixpoint pos_of_string (s : string) : positive :=
  match s with
  | EmptyString => xH
  | String a s' => if Ascii.eqb a "1" then xI (pos_of_string s') else xO (pos_of_string s')
  end.

Global Program Instance import_metadata_countable : Countable import_metadata :=
  inj_countable'
    (λ im, (import_id im, filename im, import_date im, import_datetime im,
            total_records im, file_hash im))
    (λ '(a, b, c, d, e, f), mkImport a b c d e f) _.
Next Obligation. by intros []. Qed.

Global Program Instance metadata_countable : Countable metadata :=
  inj_countable'
    (λ md, (import_history md, last_update md, categories md, subcategories md))
    (λ '(a, b, c, d), mkMetadata a b c d) _.
Next Obligation. by intros []. Qed.

Definition print_json (md : metadata) : string := string_of_pos (encode md).

Definition parse_json (s : string) : outcome metadata :=
  match decode (pos_of_string s) with
  | Some md => Returned md
  | None => Raised
  end.

Lemma pos_of_string_of_pos p : pos_of_string (string_of_pos p) = p.
Proof. induction p as [p IH|p IH|]; simpl; by rewrite ?IH. Qed.

Lemma parse_print_json md : parse_json (print_json md) = Returned md.
Proof.
  unfold parse_json, print_json. by rewrite pos_of_string_of_pos, decode_encode.
Qed.

(** A stable insertion sort, latest date first. *)
Definition date_key (r : row) : Z := default 0 (row_date r).

Fixpoint insert_by_date (r : row) (l : list row) : list row :=
  match l with
  | [] => [r]
  | r' :: l' =>
      if bool_decide (date_key r' ≤ date_key r) then r :: r' :: l'
      else r' :: insert_by_date r l'
  end.

Definition sort_dated (l : list row) : list row := foldr insert_by_date [] l.

Definition sort_values (df : DataFrame) : outcome DataFrame :=
  if has_column "data" df && forallb timestamp_or_missing (rows df)
  then Returned (mkDataFrame (columns df)
                   (sort_dated (filter dated (rows df))
                    ++ filter (λ r, ¬ dated r) (rows df)))
  else Raised.

Lemma insert_by_date_perm r l : insert_by_date r l ≡ₚ r :: l.
Proof.
  induction l as [|r' l IH]; [done|]. simpl. case_bool_decide; [done|].
  rewrite IH. apply Permutation_swap.
Qed.

Lemma sort_dated_perm l : sort_dated l ≡ₚ l.
Proof.
  induction l as [|r l IH]; [done|]. simpl.
  by rewrite insert_by_date_perm, IH.
Qed.

Lemma insert_by_date_sorted r l :
  StronglySorted (λ r1 r2, date_key r2 ≤ date_key r1) l →
  StronglySorted (λ r1 r2, date_key r2 ≤ date_key r1) (insert_by_date r l).
Proof.
  induction 1 as [|r' l Hs IH Hr']; [repeat constructor|].
  simpl. case_bool_decide as Hle.
  - constructor; [by constructor|]. constructor; [done|].
    eapply Forall_impl; [exact Hr'|]. simpl. lia.
  - constructor; [done|]. rewrite insert_by_date_perm. constructor; [lia|done].
Qed.

Lemma sort_dated_sorted l :
  StronglySorted (λ r1 r2, date_key r2 ≤ date_key r1) (sort_dated l).
Proof.
  induction l as [|r l IH]; [constructor|]. by apply insert_by_date_sorted.
Qed.

Lemma sort_values_sorted l :
  date_sorted (sort_dated (filter dated l) ++ filter (λ r, ¬ dated r) l).
Proof.
  apply StronglySorted_app. split_and!.
  - intros r1 r2 _ Hr2. apply ledger_order_undated.
    by apply list_elem_of_filter in Hr2 as [? _].
  - assert (Forall dated (sort_dated (filter dated l))) as Hd.
    { rewrite sort_dated_perm. apply Forall_forall.
      intros r Hr. by apply list_elem_of_filter in Hr as [? _]. }
    pose proof (sort_dated_sorted (filter dated l)) as Hs.
    induction Hs as [|r l' Hs IH Hr]; [constructor|].
    apply Forall_cons in Hd as [[d Hd] Hl]. constructor; [by apply IH|].
    apply Forall_forall. intros r' Hin.
    eapply Forall_forall in Hr; [|exact Hin].
    eapply Forall_forall in Hl; [|exact Hin]. destruct Hl as [d' Hd'].
    unfold ledger_order, date_key in *. by rewrite Hd, Hd' in *.
  - apply date_sorted_undated, Forall_forall.
    intros r Hr. by apply list_elem_of_filter in Hr as [? _].
Qed.

Lemma sort_values_undated l :
  filter (λ r, ¬ dated r) (sort_dated (filter dated l) ++ filter (λ r, ¬ dated r) l)
  = filter (λ r, ¬ dated r) l.
Proof.
  rewrite filter_app.
  assert (filter (λ r, ¬ dated r) (sort_dated (filter dated l)) = []) as ->.
  { apply filter_none. rewrite sort_dated_perm.
    apply Forall_forall. intros r Hr Hn.
    apply list_elem_of_filter in Hr as [? _]. by apply Hn. }
  simpl. apply filter_all, Forall_forall.
  intros r Hr. by apply list_elem_of_filter in Hr as [? _].
Qed.

Global Program Instance externals : Externals := {|
  to_datetime := parse_time;
  to_datetime_strict := parse_time_strict;
  to_numeric := parse_number;
  astype_str := λ c, print_cell (Some c);
  to_csv := print_csv;
  read_csv := parse_csv;
  json_dumps := print_json;
  json_loads := parse_json;
  b64encode := λ s, s;
  b64decode := λ s, Returned s;
  md5_hexdigest := λ bytes, str_of_nat (length bytes);
  str_hash := λ s, s;
  blob_sha := λ s, String "#" s;
  strftime := λ t fmt, str_of_Z t;
  sort_values_data_desc := sort_values
|}.
Next Obligation.
  intros df Hc Ht. unfold sort_values. rewrite Hc. simpl.
  assert (forallb timestamp_or_missing (rows df) = true) as ->; [|by eexists].
  apply forallb_forall. intros r Hr. apply list_elem_of_In in Hr.
  by eapply Forall_forall in Ht.
Qed.
Next Obligation.
  intros df sorted. unfold sort_values.
  destruct (has_column "data" df && forallb timestamp_or_missing (rows df)); [|done].
  intros [= <-]. simpl. split; [done|].
  rewrite sort_dated_perm. apply filter_app_complement.
Qed.
Next Obligation.
  intros df sorted. unfold sort_values.
  destruct (has_column "data" df && forallb timestamp_or_missing (rows df)); [|done].
  intros [= <-] _. simpl. split; [apply sort_values_sorted|apply sort_values_undated].
Qed.

(** A world whose repository holds the given files. *)
Definition world_with (fs : list (string * string)) (n : net_state) : world :=
  mkWorld (list_to_map fs) n [] [] 1700000000.

Definition provenance (id : string) : import_metadata :=
  mkImport id "estratto.xlsx" "2024-01-01" "2024-01-01 10:00:00" 0 None.

End Fixture.
(** * Properties *)

(** ** Running the monads *)

Ltac run_monad :=
  unfold try_except, mbind, mret, M_bind, M_ret, E_bind, E_ret, lift,
    of_outcome, st_show, datetime_now in *.

Section storage_facts.
Context `{Externals}.

(** A GET leaves the repository as it is and is recorded once. *)
Lemma requests_get_world path w :
  files (requests_get path w).2 = files w
  ∧ net (requests_get path w).2 = net w
  ∧ requests (requests_get path w).2 = requests w ++ [GET path]
  ∧ ui (requests_get path w).2 = ui w.
Proof.
  unfold requests_get.
  destruct (net w) eqn:Hnet; [destruct (files w !! path)|..]; simpl; by rewrite ?Hnet.
Qed.

(** What [load_dataframe] returns, by the outcome of the GET. *)
Lemma load_dataframe_unfold path w :
  (GitHubStorage.load_dataframe path w).1 =
    match (requests_get path w).1 with
    | Returned resp =>
        if bool_decide (status_code resp = 200)
        then match GitHubStorage.decode_dataframe resp with
             | Returned df => df
             | Raised => DataFrame_new
             end
        else DataFrame_new
    | Raised => DataFrame_new
    end.
Proof.
  unfold GitHubStorage.load_dataframe, GitHubStorage.load_dataframe_try.
  run_monad. destruct (requests_get path w) as [[resp|] w1]; simpl; [|done].
  case_bool_decide; [|done].
  by destruct (GitHubStorage.decode_dataframe resp).
Qed.

Lemma load_dataframe_world path w :
  files (GitHubStorage.load_dataframe path w).2 = files w
  ∧ net (GitHubStorage.load_dataframe path w).2 = net w
  ∧ requests (GitHubStorage.load_dataframe path w).2 = requests w ++ [GET path].
Proof.
  destruct (requests_get_world path w) as (Hf & Hn & Hr & _).
  unfold GitHubStorage.load_dataframe, GitHubStorage.load_dataframe_try.
  run_monad. destruct (requests_get path w) as [[resp|] w1]; simpl in *; [|done].
  case_bool_decide; [|done].
  by destruct (GitHubStorage.decode_dataframe resp).
Qed.

Lemma load_metadata_unfold path w :
  (GitHubStorage.load_metadata path w).1 =
    match (requests_get path w).1 with
    | Returned resp =>
        if bool_decide (status_code resp = 200)
        then match GitHubStorage.decode_metadata resp with
             | Returned md => md
             | Raised => empty_dict
             end
        else GitHubStorage.default_metadata
    | Raised => empty_dict
    end.
Proof.
  unfold GitHubStorage.load_metadata, GitHubStorage.load_metadata_try.
  run_monad. destruct (requests_get path w) as [[resp|] w1]; simpl; [|done].
  case_bool_decide; [|done].
  by destruct (GitHubStorage.decode_metadata resp).
Qed.

End storage_facts.

(** ** Frames *)

Lemma has_column_add_column c c' cols :
  c ≠ c' → bool_decide (c ∈ add_column c' cols) = bool_decide (c ∈ cols).
Proof.
  intros Hne. unfold add_column. destruct (bool_decide (c' ∈ cols)); [done|].
  apply bool_decide_ext. rewrite elem_of_app, list_elem_of_singleton.
  split; [intros [?|?]; [done|by subst]|by left].
Qed.

Lemma add_column_elem c cols : c ∈ add_column c cols.
Proof.
  unfold add_column. case_bool_decide; [done|].
  apply elem_of_app. right. by apply list_elem_of_singleton.
Qed.

Lemma add_column_mono c c' cols : c ∈ cols → c ∈ add_column c' cols.
Proof.
  intros Hc. unfold add_column. case_bool_decide; [done|].
  apply elem_of_app. by left.
Qed.

Lemma put_cell_ne c c' v (r : row) : c ≠ c' → put_cell c' v r !! c = r !! c.
Proof.
  intros Hne. unfold put_cell. destruct v.
  - by rewrite lookup_insert_ne.
  - by rewrite lookup_delete_ne.
Qed.

Lemma put_cell_is_Some c c' v (r : row) :
  is_Some (put_cell c' v r !! c) → c = c' ∨ is_Some (r !! c).
Proof.
  destruct (decide (c = c')) as [->|Hne]; [by left|].
  rewrite put_cell_ne by done. by right.
Qed.

Lemma rows_set_scalar c v df : rows (set_scalar c v df) = put_cell c v <$> rows df.
Proof.
  unfold set_scalar, set_column. simpl.
  by rewrite <-(imap_const (put_cell c v) (rows df)).
Qed.

Lemma df_empty_false df : df_empty df = false ↔ columns df ≠ [] ∧ rows df ≠ [].
Proof.
  unfold df_empty. rewrite orb_false_iff, !bool_decide_eq_false. done.
Qed.

Lemma has_column_concat_l c a b : has_column c a = true → has_column c (concat a b) = true.
Proof.
  unfold has_column, concat. simpl. rewrite !bool_decide_eq_true.
  intros Hc. apply elem_of_app. by left.
Qed.

Lemma has_column_concat_r c a b : has_column c b = true → has_column c (concat a b) = true.
Proof.
  unfold has_column, concat. simpl. rewrite !bool_decide_eq_true.
  intros Hc. apply elem_of_app. destruct (decide (c ∈ columns a)); [by left|right].
  by apply list_elem_of_filter.
Qed.

Lemma df_empty_concat_l a b : df_empty a = false → df_empty (concat a b) = false.
Proof.
  rewrite !df_empty_false. unfold concat. simpl. intros [Hc Hr]. split.
  - by destruct (columns a).
  - by destruct (rows a).
Qed.

(** *** Well-formed frames *)

Lemma well_formed_undated df :
  well_formed df → has_column "data" df = false → Forall (λ r, ¬ dated r) (rows df).
Proof.
  unfold well_formed, has_column. intros Hwf Hc.
  apply bool_decide_eq_false in Hc.
  eapply Forall_impl; [exact Hwf|]. intros r Hr [d Hd]. apply Hc, Hr.
  unfold row_date in Hd. by destruct (r !! "data").
Qed.

(** A check of [well_formed] that computes. *)
Lemma well_formed_check df :
  forallb (λ r : row, forallb (λ kv, bool_decide (kv.1 ∈ columns df)) (map_to_list r))
          (rows df) = true →
  well_formed df.
Proof.
  intros Hall. apply Forall_forall. intros r Hr c [v Hv].
  rewrite forallb_forall in Hall. specialize (Hall r).
  rewrite <-list_elem_of_In in Hall. specialize (Hall Hr).
  rewrite forallb_forall in Hall. specialize (Hall (c, v)).
  rewrite <-list_elem_of_In, elem_of_map_to_list in Hall.
  by apply bool_decide_eq_true_1 in Hall.
Qed.



(** *** Frames with Timestamps in the date column *)

(** A check of [timestamps] that computes. *)
Lemma timestamps_check df :
  forallb timestamp_or_missing (rows df) = true → timestamps df.
Proof.
  intros Hall. apply Forall_forall. intros r Hr.
  rewrite forallb_forall in Hall. apply Hall. by apply list_elem_of_In.
Qed.

Lemma timestamps_concat a b : timestamps a → timestamps b → timestamps (concat a b).
Proof. unfold timestamps, concat. simpl. intros Ha Hb. by apply Forall_app. Qed.

Lemma timestamps_select p df : timestamps df → timestamps (select p df).
Proof.
  unfold timestamps, select. simpl. intros Ht. apply Forall_forall. intros r Hr.
  apply list_elem_of_filter in Hr as [_ Hr]. by eapply Forall_forall in Ht.
Qed.

Lemma timestamps_dated df r :
  timestamps df → r ∈ rows df → dated r ↔ is_Some (r !! "data").
Proof.
  intros Ht Hr. eapply Forall_forall in Ht; [|exact Hr].
  unfold timestamp_or_missing in Ht. unfold dated, row_date.
  destruct (r !! "data") as [[]|]; try done; split; intros [? ?]; eauto; done.
Qed.

(** ** The provenance stamp *)

Lemma rows_stamped t im df : rows (stamped t im df) = stamp_row t im <$> rows df.
Proof.
  unfold stamped. rewrite !rows_set_scalar. rewrite <-!list_fmap_compose. reflexivity.
Qed.

Lemma columns_stamped t im df :
  columns (stamped t im df) =
    add_column "import_filename" (add_column "import_datetime"
      (add_column "import_date" (add_column "import_id" (columns df)))).
Proof. done. Qed.

Lemma stamp_row_lookup t im r c :
  c ∉ ["import_id"; "import_date"; "import_datetime"; "import_filename"] →
  stamp_row t im r !! c = r !! c.
Proof.
  intros Hc. unfold stamp_row.
  rewrite !put_cell_ne; [done|intros ->; apply Hc; repeat constructor..].
Qed.


Lemma stamp_row_date t im r : row_date (stamp_row t im r) = row_date r.
Proof. unfold row_date. rewrite stamp_row_lookup; [done|compute_done]. Qed.

Lemma stamp_row_import_id t im r : stamp_row t im r !! "import_id" = Some (CStr (import_id im)).
Proof.
  unfold stamp_row. rewrite !put_cell_ne by done.
  unfold put_cell. by rewrite lookup_insert_eq.
Qed.

Lemma has_column_stamped t im df c :
  c ∉ ["import_id"; "import_date"; "import_datetime"; "import_filename"] →
  has_column c (stamped t im df) = has_column c df.
Proof.
  intros Hc. unfold has_column. rewrite columns_stamped.
  rewrite !has_column_add_column; [done|intros ->; apply Hc; repeat constructor..].
Qed.

Lemma has_column_stamped_codice t im df :
  has_column codice (stamped t im df) = has_column codice df.
Proof. apply has_column_stamped. compute_done. Qed.

Lemma df_len_stamped t im df : df_len (stamped t im df) = df_len df.
Proof. unfold df_len. by rewrite rows_stamped, length_fmap. Qed.

Lemma length_rows_stamped t im df : length (rows (stamped t im df)) = length (rows df).
Proof. by rewrite rows_stamped, length_fmap. Qed.

Lemma columns_stamped_ne t im df : columns (stamped t im df) ≠ [].
Proof.
  intros Hnil. pose proof (add_column_elem "import_filename"
    (add_column "import_datetime" (add_column "import_date"
      (add_column "import_id" (columns df))))) as Hin.
  rewrite <-columns_stamped with (t := t) (im := im) in Hin. rewrite Hnil in Hin.
  by apply not_elem_of_nil in Hin.
Qed.

Lemma well_formed_stamped t im df : well_formed df → well_formed (stamped t im df).
Proof.
  unfold well_formed. rewrite rows_stamped, columns_stamped, Forall_fmap.
  intros Hwf. eapply Forall_impl; [exact Hwf|].
  intros r Hr c Hc. simpl in Hc. unfold stamp_row in Hc.
  do 4 (apply put_cell_is_Some in Hc as [->|Hc];
          [eauto 10 using add_column_elem, add_column_mono|]).
  eauto 10 using add_column_mono.
Qed.

Lemma timestamps_stamped t im df : timestamps df → timestamps (stamped t im df).
Proof.
  unfold timestamps. rewrite rows_stamped, Forall_fmap.
  intros Ht. eapply Forall_impl; [exact Ht|]. intros r Hr. simpl.
  unfold timestamp_or_missing in *. rewrite stamp_row_lookup; [done|compute_done].
Qed.

Section stamp_facts.
Context `{Externals}.

(** Line 156 decides whether the stamp is made. *)
Lemma stamp_Returned im df t :
  to_datetime_strict (import_datetime im) = Returned t →
  stamp im df = Returned (stamped t im df).
Proof. intros Ht. unfold stamp. by rewrite Ht. Qed.

Lemma stamp_Raised im df :
  to_datetime_strict (import_datetime im) = Raised → stamp im df = Raised.
Proof. intros Ht. unfold stamp. by rewrite Ht. Qed.


End stamp_facts.

(** ** The sort of lines 176-178 *)

Section sort_facts.
Context `{Externals}.

Lemma sort_by_data_returns df :
  timestamps df → ∃ sorted, sort_by_data df = Returned sorted.
Proof.
  intros Ht. unfold sort_by_data. destruct (has_column "data" df) eqn:Hc; [|by eexists].
  by apply sort_values_returns.
Qed.

Lemma sort_by_data_rows df sorted :
  sort_by_data df = Returned sorted →
  columns sorted = columns df ∧ rows sorted ≡ₚ rows df.
Proof.
  unfold sort_by_data. destruct (has_column "data" df).
  - apply sort_values_rows.
  - by intros [= <-].
Qed.

Lemma sort_by_data_no_column df :
  has_column "data" df = false → sort_by_data df = Returned df.
Proof. intros Hc. unfold sort_by_data. by rewrite Hc. Qed.

Lemma sort_by_data_sorted df sorted :
  well_formed df → timestamps df →
  sort_by_data df = Returned sorted →
  date_sorted (rows sorted)
  ∧ filter (λ r, ¬ dated r) (rows sorted) = filter (λ r, ¬ dated r) (rows df).
Proof.
  intros Hwf Ht. unfold sort_by_data. destruct (has_column "data" df) eqn:Hc.
  - intros Hs. by apply sort_values_order.
  - intros [= <-]. split; [|done]. by apply date_sorted_undated, well_formed_undated.
Qed.

Lemma df_len_sort_by_data df sorted :
  sort_by_data df = Returned sorted → df_len sorted = df_len df.
Proof. intros [_ Hp]%sort_by_data_rows. unfold df_len. by rewrite Hp. Qed.

Lemma elem_of_rows_sort_by_data df sorted r :
  sort_by_data df = Returned sorted → r ∈ rows sorted ↔ r ∈ rows df.
Proof. intros [_ Hp]%sort_by_data_rows. by rewrite Hp. Qed.

End sort_facts.

(** ** The merge, step by step *)

Section merge_facts.
Context `{Externals}.

(** The function is the computation of [merge_frames] on the ledger it
    loaded, followed by the effects of [commit]. *)
Lemma add_import_to_historical_run new_data im w :
  add_import_to_historical new_data im w =
    commit new_data (merge_frames (load_historical_data w).1 new_data im)
           (load_historical_data w).2.
Proof.
  unfold add_import_to_historical, merge_frames, sorted_or_failed, commit,
    sort_and_save, show_counts.
  run_monad. destruct (load_historical_data w) as [h w1]. simpl.
  destruct (stamp im new_data) as [new_data_copy|]; [|done].
  destruct (df_empty h).
  { destruct (sort_by_data new_data_copy) as [u|]; [|done].
    by destruct (save_historical_data u w1). }
  destruct (has_column codice h && has_column codice new_data_copy).
  - case_bool_decide; [done|]. simpl.
    destruct (sort_by_data _) as [u|]; [|done].
    by destruct (save_historical_data u _).
  - destruct (sort_by_data _) as [u|]; [|done].
    by destruct (save_historical_data u w1).
Qed.

(** In particular the frame it returns is [merge] of the loaded ledger. *)
Lemma add_import_to_historical_returns new_data im w :
  (add_import_to_historical new_data im w).1 =
    merge (load_historical_data w).1 new_data im.
Proof.
  rewrite add_import_to_historical_run. unfold merge, commit, show_counts.
  destruct (merge_frames _ new_data im) as [df|counts df|counts]; [done|..].
  - run_monad. destruct counts as [[nuove duplicati]|]; simpl;
      by destruct (save_historical_data df _).
  - run_monad. by destruct counts as [[nuove duplicati]|].
Qed.

(** When line 156 raises nothing else is done. *)
Lemma merge_frames_unparsed historical_df new_data im :
  to_datetime_strict (import_datetime im) = Raised →
  merge_frames historical_df new_data im = Failed None.
Proof. intros Ht. unfold merge_frames. by rewrite (stamp_Raised _ _ Ht). Qed.

Lemma merge_frames_empty historical_df new_data im t :
  to_datetime_strict (import_datetime im) = Returned t →
  df_empty historical_df = true →
  merge_frames historical_df new_data im = sorted_or_failed None (stamped t im new_data).
Proof. intros Ht He. unfold merge_frames. by rewrite (stamp_Returned _ _ _ Ht), He. Qed.

Lemma merge_frames_coded historical_df new_data im t :
  to_datetime_strict (import_datetime im) = Returned t →
  df_empty historical_df = false →
  has_column codice historical_df = true →
  has_column codice new_data = true →
  merge_frames historical_df new_data im =
    match kept_rows historical_df (stamped t im new_data) with
    | [] => Unchanged historical_df
    | kept =>
        sorted_or_failed
          (Some (length kept, (df_len new_data - length kept)%nat))
          (concat historical_df (mkDataFrame (columns (stamped t im new_data)) kept))
    end.
Proof.
  intros Ht He Hh Hn. unfold merge_frames.
  rewrite (stamp_Returned _ _ _ Ht), He, Hh, has_column_stamped_codice, Hn.
  unfold df_len, select, kept_rows. cbn [rows andb columns].
  rewrite length_rows_stamped.
  destruct (filter _ (rows (stamped t im new_data))) as [|r kept]; done.
Qed.

Lemma merge_frames_uncoded historical_df new_data im t :
  to_datetime_strict (import_datetime im) = Returned t →
  df_empty historical_df = false →
  has_column codice historical_df && has_column codice new_data = false →
  merge_frames historical_df new_data im =
    sorted_or_failed None (concat historical_df (stamped t im new_data)).
Proof.
  intros Ht He Hc. unfold merge_frames.
  by rewrite (stamp_Returned _ _ _ Ht), He, has_column_stamped_codice, Hc.
Qed.



(** On frames with Timestamps in the date column the sort does not raise. *)
Lemma sorted_or_failed_timestamps counts df :
  timestamps df →
  ∃ updated, sort_by_data df = Returned updated
             ∧ sorted_or_failed counts df = Updated counts updated.
Proof.
  intros Ht. destruct (sort_by_data_returns df Ht) as [u Hu].
  exists u. split; [done|]. unfold sorted_or_failed. by rewrite Hu.
Qed.




End merge_facts.

(** ** What a write touches *)

Section write_facts.
Context `{Externals}.

Lemma requests_put_world path msg content sha w :
  (∀ p, p ≠ path → files (requests_put path msg content sha w).2 !! p = files w !! p)
  ∧ net (requests_put path msg content sha w).2 = net w
  ∧ ui (requests_put path msg content sha w).2 = ui w
  ∧ now (requests_put path msg content sha w).2 = now w.
Proof.
  unfold requests_put.
  destruct (net w) eqn:Hnet; simpl; [|by rewrite ?Hnet..].
  destruct (files w !! path) as [c|] eqn:Hc; [destruct sha as [s|]|]; simpl.
  - case_bool_decide; simpl; rewrite ?Hnet; split_and!; try done.
    intros p Hp. by rewrite lookup_insert_ne.
  - by rewrite Hnet.
  - rewrite Hnet. split_and!; try done.
    intros p Hp. by rewrite lookup_insert_ne.
Qed.

Lemma file_exists_world path w :
  files (GitHubStorage.file_exists path w).2 = files w
  ∧ net (GitHubStorage.file_exists path w).2 = net w
  ∧ ui (GitHubStorage.file_exists path w).2 = ui w
  ∧ now (GitHubStorage.file_exists path w).2 = now w.
Proof.
  unfold GitHubStorage.file_exists, requests_get. run_monad.
  destruct (net w) eqn:Hnet; [destruct (files w !! path)|..]; simpl; by rewrite ?Hnet.
Qed.

Lemma get_file_sha_world path w :
  files (GitHubStorage.get_file_sha path w).2 = files w
  ∧ net (GitHubStorage.get_file_sha path w).2 = net w
  ∧ ui (GitHubStorage.get_file_sha path w).2 = ui w
  ∧ now (GitHubStorage.get_file_sha path w).2 = now w.
Proof.
  unfold GitHubStorage.get_file_sha, requests_get. run_monad.
  destruct (net w) eqn:Hnet; [destruct (files w !! path)|..]; simpl;
    rewrite ?Hnet; try done.
  case_bool_decide; simpl; by rewrite ?Hnet.
Qed.

(** The probe, the token fetch and the PUT touch no other path and show
    nothing. *)
Lemma put_blob_world path msg content w :
  (∀ p, p ≠ path → files (GitHubStorage.put_blob path msg content w).2 !! p = files w !! p)
  ∧ net (GitHubStorage.put_blob path msg content w).2 = net w
  ∧ ui (GitHubStorage.put_blob path msg content w).2 = ui w
  ∧ now (GitHubStorage.put_blob path msg content w).2 = now w.
Proof.
  unfold GitHubStorage.put_blob. run_monad.
  destruct (file_exists_world path w) as (Hf1 & Hn1 & Hu1 & Ht1).
  destruct (GitHubStorage.file_exists path w) as [present w1]. simpl in *.
  destruct present; simpl.
  - destruct (get_file_sha_world path w1) as (Hf2 & Hn2 & Hu2 & Ht2).
    destruct (GitHubStorage.get_file_sha path w1) as [sha w2]. simpl in *.
    destruct (requests_put_world path msg content (GitHubStorage.truthy sha) w2)
      as (Hf3 & Hn3 & Hu3 & Ht3).
    destruct (requests_put path msg content (GitHubStorage.truthy sha) w2)
      as [[resp|] w3]; simpl in *;
      (split; [intros p Hp; etrans; [by apply Hf3|congruence]|split_and!; congruence]).
  - destruct (requests_put_world path msg content None w1)
      as (Hf3 & Hn3 & Hu3 & Ht3).
    destruct (requests_put path msg content None w1)
      as [[resp|] w3]; simpl in *;
      (split; [intros p Hp; etrans; [by apply Hf3|congruence]|split_and!; congruence]).
Qed.

(** [save_metadata] returns the dict with its new ['last_update'] and writes
    at most the metadata document. *)
Lemma save_metadata_result md w :
  (save_metadata md w).1 =
    GitHubStorage.set_last_update (strftime (now w) "%Y-%m-%d %H:%M:%S") md.
Proof.
  unfold save_metadata, GitHubStorage.save_metadata. run_monad. simpl.
  destruct (GitHubStorage.put_blob _ _ _ w) as [[[]|] w1]; done.
Qed.

Lemma save_metadata_files md w p :
  p ≠ metadata_path → files (save_metadata md w).2 !! p = files w !! p.
Proof.
  intros Hp. unfold save_metadata, GitHubStorage.save_metadata. run_monad. simpl.
  destruct (put_blob_world metadata_path "Update metadata"
              (b64encode (json_dumps (GitHubStorage.set_last_update
                 (strftime (now w) "%Y-%m-%d %H:%M:%S") md))) w) as (Hf & _).
  specialize (Hf p Hp).
  destruct (GitHubStorage.put_blob _ _ _ w) as [[[]|] w1]; done.
Qed.

End write_facts.

#[local] Arguments GitHubStorage.truthy : simpl never.

Section write_outcomes.
Context `{Externals}.

Lemma truthy_Some s : s ≠ EmptyString → GitHubStorage.truthy (Some s) = Some s.
Proof. by destruct s. Qed.

Lemma truthy_None : GitHubStorage.truthy None = None.
Proof. done. Qed.

(** With the API up, the probe, the token fetch and the PUT succeed and the
    blob is stored, whether the path was free or taken. *)
Lemma put_blob_up path msg content w :
  net w = Up →
  (∀ c, files w !! path = Some c → blob_sha c ≠ EmptyString) →
  (GitHubStorage.put_blob path msg content w).1 = Returned true
  ∧ files (GitHubStorage.put_blob path msg content w).2 = <[path:=content]> (files w)
  ∧ requests (GitHubStorage.put_blob path msg content w).2 =
      requests w ++
      match files w !! path with
      | Some c => [GET path; GET path; PUT path msg content (Some (blob_sha c))]
      | None => [GET path; PUT path msg content None]
      end.
Proof.
  intros Hnet Hsha.
  unfold GitHubStorage.put_blob, GitHubStorage.file_exists, GitHubStorage.get_file_sha,
    requests_get, requests_put.
  run_monad. simpl. rewrite Hnet.
  destruct (files w !! path) as [c|] eqn:Hc.
  - specialize (Hsha c eq_refl).
    repeat (progress (simpl; rewrite ?Hnet, ?Hc, ?(truthy_Some _ Hsha))).
    rewrite bool_decide_eq_true_2 by done. simpl.
    by rewrite <-!app_assoc.
  - repeat (progress (simpl; rewrite ?Hnet, ?Hc, ?truthy_None)).
    by rewrite <-!app_assoc.
Qed.

(** Whatever the API does, the blob is either stored at the path or no file
    changes; a result other than [True] means that no file changed. *)
Lemma put_blob_files path msg content w :
  files (GitHubStorage.put_blob path msg content w).2 = files w
  ∨ ((GitHubStorage.put_blob path msg content w).1 = Returned true
     ∧ net w = Up
     ∧ files (GitHubStorage.put_blob path msg content w).2 = <[path:=content]> (files w)).
Proof.
  unfold GitHubStorage.put_blob, GitHubStorage.file_exists, GitHubStorage.get_file_sha,
    requests_get, requests_put.
  run_monad. simpl.
  destruct (net w) eqn:Hnet.
  - destruct (files w !! path) as [c|] eqn:Hc.
    + repeat (progress (simpl; rewrite ?Hnet, ?Hc)).
      destruct (GitHubStorage.truthy (Some (blob_sha c))) as [s|];
        repeat (progress (simpl; rewrite ?Hnet, ?Hc)); [|by left].
      case_bool_decide; simpl; [right; auto|by left].
    + repeat (progress (simpl; rewrite ?Hnet, ?Hc, ?truthy_None)). right; auto.
  - destruct (decide (status = 200)) as [->|Hs];
      repeat (progress (simpl;
        rewrite ?Hnet, ?(bool_decide_eq_false_2 _ Hs), ?truthy_None)); by left.
  - repeat (progress (simpl; rewrite ?Hnet)). by left.
Qed.

(** Whatever the API does, the requests are the probes of the path followed
    by one PUT of the content. *)
Lemma put_blob_requests path msg content w :
  ∃ probes sha,
    requests (GitHubStorage.put_blob path msg content w).2
      = requests w ++ probes ++ [PUT path msg content sha]
    ∧ Forall (λ q, q = GET path) probes.
Proof.
  unfold GitHubStorage.put_blob, GitHubStorage.file_exists, GitHubStorage.get_file_sha,
    requests_get, requests_put.
  run_monad. simpl.
  destruct (net w) eqn:Hnet.
  - destruct (files w !! path) as [c|] eqn:Hc.
    + repeat (progress (simpl; rewrite ?Hnet, ?Hc)).
      exists [GET path; GET path], (GitHubStorage.truthy (Some (blob_sha c))).
      split; [|by repeat constructor].
      destruct (GitHubStorage.truthy (Some (blob_sha c))) as [s|];
        repeat (progress (simpl; rewrite ?Hnet, ?Hc));
        [case_bool_decide|]; simpl; by rewrite <-!app_assoc.
    + repeat (progress (simpl; rewrite ?Hnet, ?Hc, ?truthy_None)).
      exists [GET path], None. split; [|by repeat constructor].
      by rewrite <-!app_assoc.
  - destruct (decide (status = 200)) as [->|Hs].
    + repeat (progress (simpl; rewrite ?Hnet, ?truthy_None)).
      exists [GET path; GET path], None. split; [|by repeat constructor].
      by rewrite <-!app_assoc.
    + repeat (progress (simpl;
        rewrite ?Hnet, ?(bool_decide_eq_false_2 _ Hs), ?truthy_None)).
      exists [GET path], None. split; [|by repeat constructor].
      by rewrite <-!app_assoc.
  - repeat (progress (simpl; rewrite ?Hnet)).
    exists [GET path], None. split; [|by repeat constructor].
    by rewrite <-!app_assoc.
Qed.

(** What [save_metadata] of main.py does to the world, by the outcome of the
    write: [document] is the text it sends. *)
Lemma save_metadata_run md w :
  let saved := GitHubStorage.set_last_update (strftime (now w) "%Y-%m-%d %H:%M:%S") md in
  let document := b64encode (json_dumps saved) in
  let put := GitHubStorage.put_blob metadata_path "Update metadata" document w in
  (save_metadata md w).1 = saved
  ∧ files (save_metadata md w).2 = files put.2
  ∧ net (save_metadata md w).2 = net w
  ∧ requests (save_metadata md w).2 = requests put.2
  ∧ ui (save_metadata md w).2 =
      ui w ++ match put.1 with
              | Returned true => []
              | Returned false => [Errore_salvataggio_metadati]
              | Raised => [Errore_nel_salvataggio_metadati; Errore_salvataggio_metadati]
              end.
Proof.
  intros saved document put.
  destruct (put_blob_world metadata_path "Update metadata" document w)
    as (_ & Hn & Hu & _).
  unfold save_metadata, GitHubStorage.save_metadata. run_monad. simpl.
  fold saved. fold document. fold put. fold put in Hn, Hu.
  destruct put as [[[]|] w1]; simpl in *; rewrite ?Hu, ?Hn, <-?app_assoc, ?app_nil_r;
    done.
Qed.

End write_outcomes.

(** ** The store's reads *)

(** C8. Reading the ledger never raises: when the GET raises, when it is
    answered with a status other than 200, or when decoding the answer raises,
    [load_dataframe] returns the empty frame, and the repository is left as
    it was. *)
Theorem load_dataframe_never_raises `{Externals} (file_path : string) (w : world) :
  (requests_get file_path w).1 = Raised
  ∨ (∃ resp, (requests_get file_path w).1 = Returned resp
       ∧ (status_code resp ≠ 200 ∨ GitHubStorage.decode_dataframe resp = Raised)) →
  (GitHubStorage.load_dataframe file_path w).1 = DataFrame_new
  ∧ df_empty (GitHubStorage.load_dataframe file_path w).1 = true
  ∧ files (GitHubStorage.load_dataframe file_path w).2 = files w.
Proof.
  intros Hfail.
  assert ((GitHubStorage.load_dataframe file_path w).1 = DataFrame_new) as Hnew.
  { rewrite load_dataframe_unfold.
    destruct Hfail as [->|(resp & -> & [Hs|Hd])]; [done|..].
    - by rewrite bool_decide_eq_false_2.
    - rewrite Hd. by case_bool_decide. }
  rewrite Hnew. split_and!; [done..|].
  apply load_dataframe_world.
Qed.

Lemma load_dataframe_never_raises_witness :
  (GitHubStorage.load_dataframe data_path (Fixture.world_with [] Down)).1 = DataFrame_new
  ∧ (GitHubStorage.load_dataframe data_path (Fixture.world_with [] (Answering 403))).1
    = DataFrame_new
  ∧ (GitHubStorage.load_dataframe data_path
       (Fixture.world_with [(data_path, EmptyString)] Up)).1 = DataFrame_new.
Proof.
  split_and!.
  - apply (load_dataframe_never_raises data_path (Fixture.world_with [] Down)).
    left. reflexivity.
  - apply (load_dataframe_never_raises data_path (Fixture.world_with [] (Answering 403))).
    right. exists (mkResponse 403 None). split; [reflexivity|]. left. discriminate.
  - apply (load_dataframe_never_raises data_path
             (Fixture.world_with [(data_path, EmptyString)] Up)).
    right. exists (mkResponse 200 (Some (EmptyString, "#"))). split; [reflexivity|].
    right. reflexivity.
Defined.

(** C10. The two absence paths of the metadata read differ: a GET answered
    with a status other than 200 yields the built-in default document (eight
    categories, four subcategory lists, an empty import history and a
    [last_update] of [None]), whereas a raised exception, in the request or in
    the decoding, yields the empty dict, which has none of the four keys. *)
Theorem load_metadata_absence_paths `{Externals} (file_path : string) (w : world) :
  (∀ resp, (requests_get file_path w).1 = Returned resp → status_code resp ≠ 200 →
     (GitHubStorage.load_metadata file_path w).1 = GitHubStorage.default_metadata)
  ∧ ((requests_get file_path w).1 = Raised
     ∨ (∃ resp, (requests_get file_path w).1 = Returned resp
          ∧ status_code resp = 200 ∧ GitHubStorage.decode_metadata resp = Raised) →
     (GitHubStorage.load_metadata file_path w).1 = empty_dict)
  ∧ (length <$> categories GitHubStorage.default_metadata = Some 8%nat
     ∧ base.size <$> subcategories GitHubStorage.default_metadata = Some 4%nat
     ∧ import_history GitHubStorage.default_metadata = Some []
     ∧ last_update GitHubStorage.default_metadata = Some None)
  ∧ (categories empty_dict = None ∧ subcategories empty_dict = None
     ∧ import_history empty_dict = None ∧ last_update empty_dict = None)
  ∧ GitHubStorage.default_metadata ≠ empty_dict.
Proof.
  split_and!; try done.
  - intros resp Hget Hs. rewrite load_metadata_unfold, Hget.
    by rewrite bool_decide_eq_false_2.
  - intros [Hget|(resp & Hget & Hs & Hd)]; rewrite load_metadata_unfold, Hget; [done|].
    by rewrite bool_decide_eq_true_2, Hd.
Qed.

Lemma load_metadata_absence_paths_witness :
  (GitHubStorage.load_metadata metadata_path (Fixture.world_with [] Up)).1
    = GitHubStorage.default_metadata
  ∧ (GitHubStorage.load_metadata metadata_path (Fixture.world_with [] Down)).1
    = empty_dict.
Proof.
  split.
  - apply (proj1 (load_metadata_absence_paths metadata_path (Fixture.world_with [] Up))
             (mkResponse 404 None)); [reflexivity|discriminate].
  - apply (proj1 (proj2 (load_metadata_absence_paths metadata_path
                           (Fixture.world_with [] Down)))).
    left. reflexivity.
Defined.

(** ** The upload guard *)

(** C7. A file whose fingerprint is the one recorded in an entry of the import
    history is skipped: the handler shows the warning and does nothing else,
    so no request is issued (the ledger is not even read, hence not merged),
    no file of the repository changes and the metadata dict is unchanged. *)
Theorem upload_same_fingerprint_skipped `{Externals}
    (md : metadata) (file : uploaded_file) (w : world)
    (history : list import_metadata) (imp : import_metadata) :
  import_history md = Some history →
  imp ∈ history →
  file_hash imp = Some (get_file_hash file) →
  upload md file w =
    (md, mkWorld (files w) (net w) (requests w)
                 (ui w ++ [File_gia_caricato (name file)]) (now w)).
Proof.
  intros Hh Hin Hfp. unfold upload. rewrite Hh. simpl.
  rewrite bool_decide_eq_true_2; [done|].
  apply list_elem_of_fmap. exists imp. by rewrite Hfp.
Qed.

Lemma upload_same_fingerprint_skipped_witness :
  let file := mkUpload "estratto.xlsx" 2 (Returned [Byte.x50; Byte.x4b])
                (Returned (mkDataFrame ["Codice transazione"] [])) in
  let imp := mkImport "PP_1_estratto" "estratto.xlsx" "2024-01-01"
               "2024-01-01 10:00:00" 0 (Some "2") in
  let md := set_import_history [imp] GitHubStorage.default_metadata in
  let w := Fixture.world_with [] Up in
  (upload md file w).1 = md
  ∧ requests (upload md file w).2 = []
  ∧ files (upload md file w).2 = files w.
Proof.
  intros file imp md w.
  rewrite (upload_same_fingerprint_skipped md file w [imp] imp);
    [done|reflexivity|by apply list_elem_of_singleton|reflexivity].
Defined.

(** ** Removing a category *)

Lemma list_remove_first_length cat cats :
  cat ∈ cats → S (length (list_remove_first cat cats)) = length cats.
Proof.
  induction cats as [|c cats IH]; [by intros ?%not_elem_of_nil|].
  intros Hin. simpl. case_bool_decide as Hc; [done|].
  apply elem_of_cons in Hin as [->|Hin]; [done|].
  simpl. by rewrite IH.
Qed.

Lemma list_remove_first_other cat cats c :
  c ≠ cat → c ∈ list_remove_first cat cats ↔ c ∈ cats.
Proof.
  intros Hne. induction cats as [|c' cats IH]; [done|].
  simpl. case_bool_decide as Hc.
  - subst c'. rewrite elem_of_cons. split; [by right|by intros [?|?]].
  - rewrite !elem_of_cons, IH. done.
Qed.

Lemma list_remove_first_subseteq cat cats c :
  c ∈ list_remove_first cat cats → c ∈ cats.
Proof.
  induction cats as [|c' cats IH]; [done|].
  simpl. case_bool_decide as Hc.
  - apply list_elem_of_further.
  - rewrite !elem_of_cons. intros [->|Hin]; [by left|right; by apply IH].
Qed.

Lemma list_remove_first_NoDup cat cats :
  NoDup cats → cat ∉ list_remove_first cat cats.
Proof.
  induction 1 as [|c cats Hc Hnd IH]; [apply not_elem_of_nil|].
  simpl. case_bool_decide as Heq; [by subst c|].
  rewrite not_elem_of_cons. done.
Qed.

Section reload.
Context `{Externals}.

(** With the API up, [load_metadata] reads back the dict whose JSON text is
    stored, when the two codecs are inverses on it. *)
Lemma load_metadata_stored md w :
  net w = Up →
  files w !! metadata_path = Some (b64encode (json_dumps md)) →
  b64decode (b64encode (json_dumps md)) = Returned (json_dumps md) →
  json_loads (json_dumps md) = Returned md →
  (load_metadata w).1 = md.
Proof.
  intros Hnet Hf Hb Hj.
  unfold load_metadata. rewrite load_metadata_unfold.
  unfold requests_get. rewrite Hnet, Hf. simpl.
  unfold GitHubStorage.decode_metadata, json_content. simpl.
  by rewrite Hb; simpl; rewrite Hj.
Qed.

End reload.

(** C9. Pressing the delete button of a category of the taxonomy removes the
    name from [categories] (its first occurrence; the name is gone when the
    list has no duplicates, and every other name stays) and drops its entry of
    [subcategories] when there is one.  The handler then sends the JSON text
    of that dict with one PUT to the metadata document and to no other path.
    When the content API is up the stored document becomes that text and
    nothing else changes, so the dict read back at the next run is the one
    without the category (provided base64 and JSON decode what they
    encoded); when the API is not up no file changes and, when the request
    raises, both errors are shown.  In every case the stored ledger, hence
    every record of it, is left as it was. *)
Theorem delete_category_leaves_ledger `{Externals}
    (md : metadata) (cats : list string) (i : nat) (cat : string) (w : world) :
  let out := delete_category md i w in
  let document := b64encode (json_dumps out.1) in
  categories md = Some cats →
  cats !! i = Some cat →
  categories out.1 = Some (list_remove_first cat cats)
  ∧ S (length (list_remove_first cat cats)) = length cats
  ∧ (NoDup cats → cat ∉ list_remove_first cat cats)
  ∧ (∀ c, c ≠ cat → c ∈ list_remove_first cat cats ↔ c ∈ cats)
  ∧ subcategories out.1 = delete cat <$> subcategories md
  ∧ import_history out.1 = import_history md
  ∧ (∃ probes sha,
       requests out.2
         = requests w ++ probes ++ [PUT metadata_path "Update metadata" document sha]
       ∧ Forall (λ q, q = GET metadata_path) probes)
  ∧ (net w = Up →
     (∀ c, files w !! metadata_path = Some c → blob_sha c ≠ EmptyString) →
     files out.2 = <[metadata_path:=document]> (files w)
     ∧ ui out.2 = ui w
     ∧ (b64decode document = Returned (json_dumps out.1) →
        json_loads (json_dumps out.1) = Returned out.1 →
        (load_metadata out.2).1 = out.1))
  ∧ (net w ≠ Up → files out.2 = files w)
  ∧ (net w = Down →
     ui out.2 = ui w ++ [Errore_nel_salvataggio_metadati; Errore_salvataggio_metadati])
  ∧ (∀ p, p ≠ metadata_path → files out.2 !! p = files w !! p)
  ∧ files out.2 !! data_path = files w !! data_path.
Proof.
  intros out document Hcats Hi.
  assert (cat ∈ cats) as Hin by (by eapply list_elem_of_lookup_2).
  unfold document, out, delete_category. rewrite Hcats. simpl. rewrite Hi.
  match goal with |- context [save_metadata ?d w] => set (md' := d) end.
  destruct (save_metadata_run md' w) as (Hr & Hf & Hn & Hq & Hu).
  cbv zeta in Hr, Hf, Hn, Hq, Hu. rewrite Hr.
  set (saved := GitHubStorage.set_last_update _ md') in *.
  set (doc := b64encode (json_dumps saved)) in *.
  split_and!.
  - done.
  - by apply list_remove_first_length.
  - apply list_remove_first_NoDup.
  - intros c Hc. by apply list_remove_first_other.
  - unfold saved, md'. simpl.
    destruct (subcategories md) as [subs|] eqn:Hsubs; simpl; [|by rewrite Hsubs].
    case_bool_decide as Hdom; simpl; [done|].
    rewrite Hsubs. f_equal. symmetry. apply delete_id.
    by apply not_elem_of_dom.
  - unfold saved, md'. simpl.
    by destruct (subcategories md) as [subs|]; [case_bool_decide|].
  - rewrite Hq. apply put_blob_requests.
  - intros Hup Hsha.
    destruct (put_blob_up metadata_path "Update metadata" doc w Hup Hsha)
      as (Hok & Hfiles & _).
    rewrite Hok in Hu. rewrite app_nil_r in Hu.
    split_and!; [by rewrite Hf|done|].
    intros Hb Hj. apply load_metadata_stored; [by rewrite Hn| |done..].
    by rewrite Hf, Hfiles, lookup_insert_eq.
  - intros Hnup. rewrite Hf.
    by destruct (put_blob_files metadata_path "Update metadata" doc w)
      as [?|(_ & ? & _)].
  - intros Hdown. rewrite Hu.
    assert ((GitHubStorage.put_blob metadata_path "Update metadata" doc w).1 = Raised)
      as ->; [|done].
    unfold GitHubStorage.put_blob, GitHubStorage.file_exists, requests_get, requests_put.
    run_monad. simpl. by repeat (progress (simpl; rewrite ?Hdown)).
  - intros p Hp. by apply save_metadata_files.
  - by apply save_metadata_files.
Qed.

Lemma delete_category_leaves_ledger_witness :
  let ledger := mkDataFrame ["nome"; "categoria"]
        [{["nome" := CStr "Alice"; "categoria" := CStr "Marketing"]};
         {["nome" := CStr "Bob"; "categoria" := CStr "Software"]}] in
  let w := Fixture.world_with
             [(data_path, to_csv ledger);
              (metadata_path, json_dumps GitHubStorage.default_metadata)] Up in
  let out := delete_category GitHubStorage.default_metadata 6 w in
  categories out.1 = Some ["Software"; "Domini e Hosting"; "Servizi Web";
                           "Abbonamenti"; "Hardware"; "Consulenze"; "Altro"]
  ∧ (subcategories out.1 ≫= (.!! "Marketing")) = None
  ∧ files out.2 !! metadata_path = Some (json_dumps out.1)
  ∧ (load_metadata out.2).1 = out.1
  ∧ is_put <$> requests out.2 = [false; false; true]
  ∧ files out.2 !! data_path = Some (to_csv ledger)
  ∧ (λ r : row, r !! "categoria") <$> rows (load_historical_data out.2).1
    = [Some (CStr "Marketing"); Some (CStr "Software")].
Proof.
  intros ledger w out.
  pose proof (delete_category_leaves_ledger GitHubStorage.default_metadata
    ["Software"; "Domini e Hosting"; "Servizi Web"; "Abbonamenti";
     "Hardware"; "Consulenze"; "Marketing"; "Altro"] 6 "Marketing" w
    eq_refl eq_refl) as (Hc & _ & _ & _ & Hs & _ & _ & Hup & _ & _ & _ & Hf).
  destruct Hup as (Hfiles & _ & Hload); [reflexivity|done|].
  split_and!.
  - exact Hc.
  - unfold out. rewrite Hs. reflexivity.
  - unfold out. rewrite Hfiles. apply lookup_insert_eq.
  - apply Hload; [reflexivity|apply Fixture.parse_print_json].
  - vm_compute. reflexivity.
  - unfold out. rewrite Hf. vm_compute. reflexivity.
  - vm_compute. reflexivity.
Defined.

(** ** Row-level deduplication *)

Lemma elem_of_existing_codes df c :
  c ∈ existing_codes_of df ↔ ∃ r, r ∈ rows df ∧ r !! codice = Some c.
Proof.
  unfold existing_codes_of. rewrite elem_of_list_to_set, list_elem_of_omap. done.
Qed.

Lemma not_isin_false df r :
  not_isin (existing_codes_of df) r = false ↔ code_present df r.
Proof.
  unfold not_isin, code_present. destruct (r !! codice) as [c|].
  - rewrite bool_decide_eq_false. split.
    + intros Hc. apply dec_stable in Hc.
      apply elem_of_existing_codes in Hc as (r' & ? & ?). by exists c, r'.
    + intros (c' & r' & [= <-] & ? & ?) Hn. apply Hn.
      apply elem_of_existing_codes. by exists r'.
  - split; [done|]. by intros (c & r' & ? & _).
Qed.

Lemma not_isin_true df r :
  not_isin (existing_codes_of df) r = true ↔ ¬ code_present df r.
Proof.
  rewrite <-not_isin_false. by destruct (not_isin _ r).
Qed.


Lemma elem_of_kept_rows historical_df new_data_copy r :
  r ∈ kept_rows historical_df new_data_copy ↔
  r ∈ rows new_data_copy ∧ ¬ code_present historical_df r.
Proof.
  unfold kept_rows. rewrite list_elem_of_filter, not_isin_true. tauto.
Qed.


Lemma timestamps_kept historical_df new_data_copy :
  timestamps new_data_copy →
  timestamps (mkDataFrame (columns new_data_copy) (kept_rows historical_df new_data_copy)).
Proof. apply (timestamps_select (not_isin (existing_codes_of historical_df))). Qed.

Section save_facts.
Context `{Externals}.

(** What [save_historical_data] does to the world, by the outcome of the
    write. *)
Lemma save_historical_data_run df w :
  let content := b64encode (to_csv df) in
  let put := GitHubStorage.put_blob data_path "Update PayPal historical data" content w in
  files (save_historical_data df w).2 = files put.2
  ∧ net (save_historical_data df w).2 = net w
  ∧ requests (save_historical_data df w).2 = requests put.2
  ∧ ui (save_historical_data df w).2 =
      ui w ++ match put.1 with
              | Returned true => [Dati_salvati_su_GitHub]
              | Returned false => [Errore_salvataggio_su_GitHub]
              | Raised => [Errore_nel_salvataggio; Errore_salvataggio_su_GitHub]
              end.
Proof.
  intros content put.
  destruct (put_blob_world data_path "Update PayPal historical data" content w)
    as (_ & Hn & Hu & _).
  unfold save_historical_data, GitHubStorage.save_dataframe. run_monad. simpl.
  fold content. fold put. fold put in Hn, Hu.
  destruct put as [[[]|] w1]; simpl in *; rewrite ?Hu, ?Hn, <-?app_assoc; done.
Qed.

(** What [save_historical_data] shows comes after what was shown before. *)
Lemma save_historical_data_ui df w :
  ∃ shown, ui (save_historical_data df w).2 = ui w ++ shown.
Proof.
  destruct (save_historical_data_run df w) as (_ & _ & _ & Hu). by eexists.
Qed.

(** It sends the CSV text of the frame with one PUT to the ledger's path. *)
Lemma save_historical_data_requests df w :
  ∃ probes sha,
    requests (save_historical_data df w).2
      = requests w ++ probes
        ++ [PUT data_path "Update PayPal historical data" (b64encode (to_csv df)) sha]
    ∧ Forall (λ q, q = GET data_path) probes.
Proof.
  destruct (save_historical_data_run df w) as (_ & _ & Hq & _). rewrite Hq.
  apply put_blob_requests.
Qed.

End save_facts.

(** C1. When the loaded ledger is not empty, both frames carry the
    transaction-code column and the import's datetime parses (line 156), the
    function keeps exactly the stamped records of the batch whose code no
    record of the ledger carries (a ledger record with a missing code matches
    nothing).  When none is kept it returns the ledger it loaded; otherwise
    it returns, and sends to the store, a frame whose rows are a rearrangement
    of the ledger's rows followed by the kept rows, with the ledger's columns
    followed by the new columns of the batch, and the user is told how many
    records were added and how many were skipped as duplicates.  The date
    columns of both frames hold Timestamps, as the frames of the two
    producers do, so the sort of line 178 does not raise. *)
Theorem merge_keeps_new_codes `{Externals}
    (new_data : DataFrame) (im : import_metadata) (t : option cell) (w : world) :
  let historical_df := (load_historical_data w).1 in
  let new_data_copy := stamped t im new_data in
  let kept := kept_rows historical_df new_data_copy in
  let out := add_import_to_historical new_data im w in
  to_datetime_strict (import_datetime im) = Returned t →
  df_empty historical_df = false →
  has_column codice historical_df = true →
  has_column codice new_data = true →
  timestamps historical_df →
  timestamps new_data →
  (∀ r, r ∈ kept ↔ r ∈ rows new_data_copy ∧ ¬ code_present historical_df r)
  ∧ (kept = [] → out.1 = historical_df)
  ∧ rows out.1 ≡ₚ rows historical_df ++ kept
  ∧ (kept ≠ [] →
     columns out.1 = columns historical_df
                     ++ filter (λ c, c ∉ columns historical_df) (columns new_data_copy))
  ∧ (kept ≠ [] →
     ∃ after,
       ui out.2 = ui (load_historical_data w).2 ++
         [Aggiunte_nuove_evitati_duplicati (length kept) (df_len new_data - length kept)]
         ++ after)
  ∧ (kept ≠ [] →
     ∃ before sha,
       requests out.2 = before
         ++ [PUT data_path "Update PayPal historical data" (b64encode (to_csv out.1)) sha]).
Proof.
  intros h new_data_copy kept out Ht He Hh Hn Hth Htn.
  pose proof (merge_frames_coded h new_data im t Ht He Hh Hn) as Hm.
  fold new_data_copy in Hm. fold kept in Hm.
  unfold out. rewrite add_import_to_historical_run.
  fold h. rewrite Hm. clear Hm.
  split; [intros r; apply elem_of_kept_rows|].
  assert (timestamps (concat h (mkDataFrame (columns new_data_copy) kept))) as Htc.
  { apply timestamps_concat; [done|]. unfold kept.
    by apply timestamps_kept, timestamps_stamped. }
  assert (kept = kept_rows h new_data_copy) as Hk by done.
  clearbody kept. clear Hk.
  destruct kept as [|r kept'].
  { split_and!; [done|by rewrite app_nil_r|done..]. }
  cbv beta iota zeta.
  destruct (sorted_or_failed_timestamps
              (Some (length (r :: kept'), (df_len new_data - length (r :: kept'))%nat))
              _ Htc)
    as (updated & Hsort & ->).
  apply sort_by_data_rows in Hsort as [Hcols Hrows].
  unfold commit, show_counts. run_monad. simpl.
  set (w1 := mkWorld _ _ _ (ui (load_historical_data w).2 ++ [_]) _).
  destruct (save_historical_data_ui updated w1) as [shown Hshown].
  destruct (save_historical_data_requests updated w1) as (probes & sha & Hreq & _).
  destruct (save_historical_data updated w1) as [[] w2]. simpl in *.
  split_and!; [done..| |].
  - intros _. exists shown. by rewrite Hshown, <-app_assoc.
  - intros _. exists (requests (load_historical_data w).2 ++ probes), sha.
    by rewrite Hreq, <-app_assoc.
Qed.

Lemma merge_keeps_new_codes_witness :
  let ledger := mkDataFrame [codice] [{[codice := CStr "A"]}; {[codice := CStr "B"]}] in
  let w := Fixture.world_with [(data_path, to_csv ledger)] Up in
  let new_data := mkDataFrame [codice] [{[codice := CStr "B"]}; {[codice := CStr "C"]}] in
  let out := add_import_to_historical new_data (Fixture.provenance "P2") w in
  (λ r : row, (r !! codice, r !! "import_id")) <$> rows out.1
    = [(Some (CStr "A"), None); (Some (CStr "B"), None);
       (Some (CStr "C"), Some (CStr "P2"))]
  ∧ length (rows out.1) = 3%nat
  ∧ Aggiunte_nuove_evitati_duplicati 1 1 ∈ ui out.2.
Proof.
  intros ledger w new_data out.
  destruct (merge_keeps_new_codes new_data (Fixture.provenance "P2")
              (Some (CTime 2024)) w)
    as (_ & _ & Hperm & _ & Hui & _);
    [vm_compute; reflexivity..|apply timestamps_check; vm_compute; reflexivity
    |apply timestamps_check; vm_compute; reflexivity|].
  split_and!.
  - vm_compute. reflexivity.
  - unfold out. rewrite Hperm, length_app. vm_compute. reflexivity.
  - destruct Hui as (after & Hui).
    { intros Hnil. apply (f_equal length) in Hnil. vm_compute in Hnil. discriminate. }
    unfold out. rewrite Hui. apply elem_of_app. right. apply elem_of_app. left.
    apply list_elem_of_singleton. vm_compute. reflexivity.
Defined.




(** When line 156 raises, whatever the ledger and the batch: the error is
    shown, the batch is returned as it was given and the only request is the
    GET that loaded the ledger, so nothing is saved. *)
Lemma add_import_to_historical_unparsed `{Externals}
    (new_data : DataFrame) (im : import_metadata) (w : world) :
  to_datetime_strict (import_datetime im) = Raised →
  (add_import_to_historical new_data im w).1 = new_data
  ∧ files (add_import_to_historical new_data im w).2 = files w
  ∧ requests (add_import_to_historical new_data im w).2 = requests w ++ [GET data_path]
  ∧ ui (add_import_to_historical new_data im w).2
    = ui (load_historical_data w).2 ++ [Errore_aggiunta_import].
Proof.
  intros Ht. rewrite add_import_to_historical_run.
  rewrite (merge_frames_unparsed _ _ _ Ht). simpl.
  destruct (load_dataframe_world data_path w) as (Hf & _ & Hr).
  by split_and!.
Qed.

(** ** Ordering *)




(** ** The first import *)

(** C5 as stated fails: the frame built from the batch is sorted by date
    (lines 176-178) also when the ledger is empty, so a batch in ascending
    date order comes out in descending order. *)
Lemma merge_into_empty_reorders :
  let new_data := mkDataFrame ["data"; "nome"]
        [{["data" := CTime 1; "nome" := CStr "Alice"]};
         {["data" := CTime 2; "nome" := CStr "Bob"]}] in
  let new_data_copy := stamped (Some (CTime 2024)) (Fixture.provenance "P1") new_data in
  df_empty DataFrame_new = true
  ∧ stamp (Fixture.provenance "P1") new_data = Returned new_data_copy
  ∧ (λ r : row, r !! "nome") <$> rows new_data_copy
    = [Some (CStr "Alice"); Some (CStr "Bob")]
  ∧ (λ r : row, r !! "nome") <$> rows (merge DataFrame_new new_data (Fixture.provenance "P1"))
    = [Some (CStr "Bob"); Some (CStr "Alice")]
  ∧ merge DataFrame_new new_data (Fixture.provenance "P1") ≠ new_data_copy.
Proof.
  intros new_data new_data_copy. split_and!; [vm_compute; reflexivity..|].
  intros Heq. apply (f_equal (λ df, (λ r : row, r !! "nome") <$> rows df)) in Heq.
  vm_compute in Heq. discriminate.
Qed.

(** C5, amended. When the ledger is empty and the import's datetime parses
    (line 156), the result is the stamped batch sorted by date, latest first
    and undated records last in the order they had: the same columns and the
    same records, none dropped and none added; it is the stamped batch
    itself when the batch has no date column.  The date column of the batch
    holds Timestamps, as the frames of [clean_and_standardize_df] do. *)
Theorem merge_into_empty `{Externals}
    (historical_df new_data : DataFrame) (im : import_metadata) (t : option cell) :
  to_datetime_strict (import_datetime im) = Returned t →
  df_empty historical_df = true →
  timestamps new_data →
  merge_frames historical_df new_data im
    = Updated None (merge historical_df new_data im)
  ∧ columns (merge historical_df new_data im) = columns (stamped t im new_data)
  ∧ rows (merge historical_df new_data im) ≡ₚ rows (stamped t im new_data)
  ∧ df_len (merge historical_df new_data im) = df_len new_data
  ∧ (has_column "data" new_data = false →
     merge historical_df new_data im = stamped t im new_data)
  ∧ (well_formed new_data →
     date_sorted (rows (merge historical_df new_data im))
     ∧ filter (λ r, ¬ dated r) (rows (merge historical_df new_data im))
       = filter (λ r, ¬ dated r) (rows (stamped t im new_data))).
Proof.
  intros Ht He Htn. unfold merge. rewrite (merge_frames_empty _ _ _ _ Ht He).
  destruct (sorted_or_failed_timestamps None _ (timestamps_stamped t im _ Htn))
    as (updated & Hsort & ->).
  destruct (sort_by_data_rows _ _ Hsort) as [Hc Hr].
  split_and!; [done..| | |].
  - unfold df_len. by rewrite Hr, length_rows_stamped.
  - intros Hd. rewrite sort_by_data_no_column in Hsort; [congruence|].
    rewrite has_column_stamped; [done|compute_done].
  - intros Hwf. eapply sort_by_data_sorted; [| |exact Hsort].
    + by apply well_formed_stamped.
    + by apply timestamps_stamped.
Qed.

Lemma merge_into_empty_witness :
  let new_data := mkDataFrame ["data"; "nome"]
        [{["data" := CTime 1; "nome" := CStr "Alice"]};
         {["data" := CTime 2; "nome" := CStr "Bob"]}] in
  rows (merge DataFrame_new new_data (Fixture.provenance "P1"))
    ≡ₚ rows (stamped (Some (CTime 2024)) (Fixture.provenance "P1") new_data)
  ∧ df_len (merge DataFrame_new new_data (Fixture.provenance "P1")) = 2%nat
  ∧ date_sorted (rows (merge DataFrame_new new_data (Fixture.provenance "P1"))).
Proof.
  intros new_data.
  destruct (merge_into_empty DataFrame_new new_data (Fixture.provenance "P1")
              (Some (CTime 2024)))
    as (_ & _ & Hperm & Hlen & _ & Hsorted);
    [vm_compute; reflexivity|reflexivity|apply timestamps_check; vm_compute; reflexivity|].
  split_and!; [exact Hperm|exact Hlen|].
  apply Hsorted. apply well_formed_check. vm_compute. reflexivity.
Defined.

(** ** Transaction codes of a cleaned batch *)

Lemma Forall_imap {A B} (P : B → Prop) (f : nat → A → B) (l : list A) :
  (∀ i x, P (f i x)) → Forall P (imap f l).
Proof.
  revert f. induction l as [|x l IH]; intros f Hf; [constructor|].
  simpl. constructor; [apply Hf|]. apply IH. intros i y. apply Hf.
Qed.

Lemma Forall_imap_impl {A} (P Q : A → Prop) (f : nat → A → A) (l : list A) :
  (∀ i x, P x → Q (f i x)) → Forall P l → Forall Q (imap f l).
Proof.
  revert f. induction l as [|x l IH]; intros f Hf Hl; [constructor|].
  apply Forall_cons in Hl as [Hx Hl]. simpl. constructor; [by apply Hf|].
  apply IH; [|done]. intros i y. apply Hf.
Qed.

Lemma Returned_inj {A} (a b : A) : Returned a = Returned b → a = b.
Proof. by intros [= ->]. Qed.

Lemma coded_set_column_codice (g : nat → row → option cell) df :
  (∀ i r, is_Some (g i r)) → coded (set_column codice g df).
Proof.
  intros Hg. split.
  - apply bool_decide_eq_true, add_column_elem.
  - simpl. apply Forall_imap. intros i r. destruct (Hg i r) as [v Hv].
    unfold put_cell. rewrite Hv, lookup_insert_eq. by eexists.
Qed.

Lemma coded_set_column_other c (f : nat → row → option cell) df :
  c ≠ codice → coded df → coded (set_column c f df).
Proof.
  intros Hne [Hcol Hrows]. split.
  - apply bool_decide_eq_true, add_column_mono. by apply bool_decide_eq_true in Hcol.
  - simpl. eapply Forall_imap_impl; [|exact Hrows].
    intros i r Hr. simpl. by rewrite put_cell_ne.
Qed.

(** Every frame that [clean_and_standardize_df] returns, hence every batch
    that reaches the merge, carries the code column without missing values:
    a record without a code has the empty string (line 100). *)
Lemma clean_and_standardize_df_coded `{Externals} df cleaned :
  clean_and_standardize_df df = Returned cleaned → coded cleaned.
Proof.
  unfold clean_and_standardize_df. case_bool_decide; [done|].
  cbv zeta. intros Hc. apply Returned_inj in Hc. subst cleaned.
  apply coded_set_column_other; [done|].
  match goal with |- coded (if ?c then _ else _) => destruct c end;
    apply coded_set_column_codice; intros i r; by eexists.
Qed.

(** ** Importing a batch twice *)

(** C6. The function is not idempotent on the batches it receives.  A sheet
    in which one record has a transaction code and another has none is
    cleaned into a batch whose second code is the empty string (line 100).
    The first import into an empty store saves both records.  The ledger is
    read back from its CSV text at the second import (line 150), where the
    empty field is the missing value, which [dropna] removes from the set of
    codes (line 164); the empty string of the batch is then in no set of
    codes, so the record is kept, appended and saved again: two records
    after the first import, three after the second. *)
Theorem reimport_appends_record_without_code :
  let sheet := mkDataFrame ["Codice transazione"; "Nome"]
        [{["Codice transazione" := CStr "A"; "Nome" := CStr "Alice"]};
         {["Nome" := CStr "Bob"]}] in
  let w := Fixture.world_with [] Up in
  ∃ batch,
    clean_and_standardize_df sheet = Returned batch
    ∧ let first := add_import_to_historical batch (Fixture.provenance "P1") w in
      let second := add_import_to_historical batch (Fixture.provenance "P2") first.2 in
      (λ r : row, (r !! "nome", r !! codice)) <$> rows batch
        = [(Some (CStr "Alice"), Some (CStr "A"));
           (Some (CStr "Bob"), Some (CStr EmptyString))]
      ∧ (λ r : row, (r !! "nome", r !! "import_id")) <$> rows first.1
        = [(Some (CStr "Alice"), Some (CStr "P1"));
           (Some (CStr "Bob"), Some (CStr "P1"))]
      ∧ (λ r : row, (r !! "nome", r !! codice)) <$> rows (load_historical_data first.2).1
        = [(Some (CStr "Alice"), Some (CStr "A")); (Some (CStr "Bob"), None)]
      ∧ (λ r : row, (r !! "nome", r !! "import_id")) <$> rows second.1
        = [(Some (CStr "Alice"), Some (CStr "P1"));
           (Some (CStr "Bob"), Some (CStr "P1"));
           (Some (CStr "Bob"), Some (CStr "P2"))]
      ∧ ui second.2 = [Dati_salvati_su_GitHub;
                       Aggiunte_nuove_evitati_duplicati 1 1;
                       Dati_salvati_su_GitHub]
      ∧ is_put <$> requests second.2 = [false; false; true; false; false; false; true]
      ∧ df_len (load_historical_data first.2).1 = 2%nat
      ∧ df_len (load_historical_data second.2).1 = 3%nat.
Proof.
  intros sheet w.
  exists (match clean_and_standardize_df sheet with
          | Returned batch => batch
          | Raised => DataFrame_new
          end).
  split; [vm_compute; reflexivity|].
  split_and!; vm_compute; reflexivity.
Qed.

(** ** Synthetic transaction codes *)

(** C4. Two batches without transaction codes get the same position-derived
    codes ([TXN_0], [TXN_1], ...), so after the first batch is merged into the
    empty ledger every record of the second batch at a position the first
    batch also has is dropped as a duplicate, although the records differ:
    here Bob's record, second import, never reaches the ledger.  The same
    happens with the store in between: the second import shows the warning,
    sends nothing and leaves the stored ledger with Alice's record only. *)
Theorem synthetic_codes_collide_across_batches :
  ∃ first second,
    clean_and_standardize_df (mkDataFrame ["Nome"] [{["Nome" := CStr "Alice"]}])
      = Returned first
    ∧ clean_and_standardize_df (mkDataFrame ["Nome"] [{["Nome" := CStr "Bob"]}])
      = Returned second
    ∧ let ledger := merge DataFrame_new first (Fixture.provenance "P1") in
      let w := Fixture.world_with [] Up in
      let once := add_import_to_historical first (Fixture.provenance "P1") w in
      let twice := add_import_to_historical second (Fixture.provenance "P2") once.2 in
      (λ r : row, (r !! "nome", r !! codice)) <$> rows first
        = [(Some (CStr "Alice"), Some (CStr "TXN_0"))]
      ∧ (λ r : row, (r !! "nome", r !! codice)) <$> rows second
        = [(Some (CStr "Bob"), Some (CStr "TXN_0"))]
      ∧ merge_frames ledger second (Fixture.provenance "P2") = Unchanged ledger
      ∧ (λ r : row, r !! "nome") <$> rows (merge ledger second (Fixture.provenance "P2"))
        = [Some (CStr "Alice")]
      ∧ (λ r : row, (r !! "nome", r !! codice)) <$> rows twice.1
        = [(Some (CStr "Alice"), Some (CStr "TXN_0"))]
      ∧ ui twice.2 = [Dati_salvati_su_GitHub; Tutte_gia_presenti]
      ∧ is_put <$> requests twice.2 = [false; false; true; false]
      ∧ files twice.2 = files once.2.
Proof.
  exists (match clean_and_standardize_df
                  (mkDataFrame ["Nome"] [{["Nome" := CStr "Alice"]}]) with
          | Returned first => first
          | Raised => DataFrame_new
          end),
         (match clean_and_standardize_df
                  (mkDataFrame ["Nome"] [{["Nome" := CStr "Bob"]}]) with
          | Returned second => second
          | Raised => DataFrame_new
          end).
  split; [vm_compute; reflexivity|]. split; [vm_compute; reflexivity|].
  split_and!; vm_compute; reflexivity.
Qed.
